(** * Validation schemas of the calculator API

    A shallow embedding of [app/schemas/base.py] (user schemas) and
    [app/schemas/calculation.py] (calculation schemas), with the properties
    their specification states about them.

    The schemas are pydantic models.  What the repository writes itself (the
    field validators, the model validators, the field declarations) is
    translated function by function.  What pydantic does around them (running
    a "before" validator, then the built-in validator of the declared type,
    then the "after" validators; collecting the errors of all fields; running
    the model validator only when every field passed) is written out as
    explicit functions. *)

From Stdlib Require Import ZArith Ascii String List Bool Lia DecimalString.
From Stdlib Require Import Floats.SpecFloat.
From stdpp Require Import base option gmap strings list.

Open Scope string_scope.

(** ** Python values *)

Module Py.

(** *** Characters and strings

    A Python [str] is modelled by a Rocq [string], one [ascii] per code
    point: the embedding covers the code points below 256.  The character
    classes are Python's own on that range ([str.isspace], [str.isupper],
    [str.islower], [str.isdigit], [str.lower]), tables included. *)

Definition code (c : ascii) : N := N_of_ascii c.

Definition between (lo hi : N) (c : ascii) : bool :=
  (lo <=? code c)%N && (code c <=? hi)%N.

Definition isspace (c : ascii) : bool :=
  between 9 13 c || between 28 32 c || (code c =? 133)%N || (code c =? 160)%N.

Definition isupper (c : ascii) : bool :=
  between 65 90 c || between 192 214 c || between 216 222 c.

Definition islower (c : ascii) : bool :=
  between 97 122 c || (code c =? 170)%N || (code c =? 181)%N
  || (code c =? 186)%N || between 223 246 c || between 248 255 c.

Definition isdigit (c : ascii) : bool :=
  between 48 57 c || (code c =? 178)%N || (code c =? 179)%N || (code c =? 185)%N.

Definition lower_char (c : ascii) : ascii :=
  if isupper c then ascii_of_N (code c + 32) else c.

Fixpoint lower (s : string) : string :=
  match s with
  | EmptyString => EmptyString
  | String c s' => String (lower_char c) (lower s')
  end.

(** [any(p(char) for char in s)] *)
Fixpoint any (p : ascii -> bool) (s : string) : bool :=
  match s with
  | EmptyString => false
  | String c s' => p c || any p s'
  end.

Fixpoint all (p : ascii -> bool) (s : string) : bool :=
  match s with
  | EmptyString => true
  | String c s' => p c && all p s'
  end.

Definition is_empty (s : string) : bool :=
  match s with EmptyString => true | _ => false end.

Fixpoint lstrip (s : string) : string :=
  match s with
  | EmptyString => EmptyString
  | String c s' => if isspace c then lstrip s' else s
  end.

Fixpoint rstrip (s : string) : string :=
  match s with
  | EmptyString => EmptyString
  | String c s' =>
      match rstrip s' with
      | EmptyString => if isspace c then EmptyString else String c EmptyString
      | r => String c r
      end
  end.

(** [s.strip()] *)
Definition strip (s : string) : string := rstrip (lstrip s).

(** The last character of [s] satisfies [p]. *)
Fixpoint last_is (p : ascii -> bool) (s : string) : bool :=
  match s with
  | EmptyString => false
  | String c EmptyString => p c
  | String _ s' => last_is p s'
  end.

(** *** The two shapes of regular expression the validators use

    [re.match(r"^[C]+$", v)]: one or more characters of the class [C] from
    the start, then [$], which holds at the end of the string and also just
    before a newline that ends the string. *)

Definition at_dollar (s : string) : bool :=
  match s with
  | EmptyString => true
  | String c EmptyString => (code c =? 10)%N
  | _ => false
  end.

Fixpoint re_match_plus_dollar (cls : ascii -> bool) (s : string) : bool :=
  match s with
  | EmptyString => false
  | String c s' => cls c && (at_dollar s' || re_match_plus_dollar cls s')
  end.

(** [re.match(r"^[C]", v)]: the first character is in the class. *)
Definition re_match_first (cls : ascii -> bool) (s : string) : bool :=
  match s with
  | EmptyString => false
  | String c _ => cls c
  end.

Definition az (c : ascii) : bool := between 97 122 c.
Definition AZ (c : ascii) : bool := between 65 90 c.
Definition d09 (c : ascii) : bool := between 48 57 c.

(** *** Outcomes

    A validator returns its value, raises [ValueError] (which pydantic turns
    into one line of a [ValidationError]), or lets another exception escape. *)

Inductive exn : Type :=
  | TypeError (msg : string)
    (** a [TypeError]; pydantic does not catch it, so it escapes from the
        validation instead of becoming a line of a [ValidationError] *).

Inductive result (A : Type) : Type :=
  | Ok (a : A)
  | ValueError (msg : string)
  | Raise (e : exn).

Arguments Ok {A} a.
Arguments ValueError {A} msg.
Arguments Raise {A} e.

(** *** Numbers

    A Python [float] is an IEEE-754 binary64 number: [spec_float] at
    precision 53 and maximal exponent 1024. *)

Definition float : Type := spec_float.
Definition prec : Z := 53.
Definition emax : Z := 1024.

(** [float(z)] for an [int]: rounded to nearest, ties to even;
    [OverflowError] ([None]) when the rounded value is out of range. *)
Definition float_of_int (z : Z) : option float :=
  match binary_normalize prec emax z 0 false with
  | S754_infinity _ => None
  | f => Some f
  end.

Definition zero : float := S754_zero false.
Definition one : float := S754_finite false 4503599627370496 (-52).

(** [x == 0] on a float: [0.0] and [-0.0] are equal to [0], a NaN is not. *)
Definition eq_zero (x : float) : bool := SFeqb x zero.

(** [uuid.UUID] as its 128-bit integer, [datetime.datetime] as a count of
    microseconds. *)
Definition UUID : Type := N.
Definition datetime : Type := Z.

(** *** Dynamic values

    The values a payload can hold: JSON's null, booleans, numbers, text,
    arrays and objects, and the [UUID] and [datetime] objects of records that
    come back from the persistence layer.  A member of a [str, Enum] class is
    a [str] equal to its value and is passed as the [PStr] of its value. *)
#[local] Unset Elimination Schemes.
Inductive pyval : Type :=
  | PNone
  | PBool (b : bool)
  | PInt (z : Z)
  | PFloat (f : float)
  | PStr (s : string)
  | PUuid (u : UUID)
  | PDatetime (t : datetime)
  | PList (items : list pyval)
  | PDict (items : list (string * pyval)).
#[local] Set Elimination Schemes.

(** [isinstance(v, (float, int))]; [bool] is a subclass of [int]. *)
Definition is_float_or_int (v : pyval) : bool :=
  match v with
  | PBool _ | PInt _ | PFloat _ => true
  | _ => false
  end.

(** [v == 0] on a number of the payload; [False == 0] holds. *)
Definition number_eq_zero (v : pyval) : bool :=
  match v with
  | PBool x => negb x
  | PInt z => (z =? 0)%Z
  | PFloat f => eq_zero f
  | _ => false
  end.

(** [v in allowed] for a set of strings: hashing [v] raises [TypeError] for
    a list or a dict; a value that is not text is equal to no string. *)
Definition in_str_set (v : pyval) (allowed : list string) : result bool :=
  match v with
  | PList _ => Raise (TypeError "unhashable type: 'list'")
  | PDict _ => Raise (TypeError "unhashable type: 'dict'")
  | PStr s => Ok (existsb (String.eqb s) allowed)
  | _ => Ok false
  end.

(** [sorted(xs)] on strings (insertion sort, code-point order) and
    [sep.join(xs)]. *)
Fixpoint insert_sorted (x : string) (xs : list string) : list string :=
  match xs with
  | [] => [x]
  | y :: ys => if String.leb x y then x :: xs else y :: insert_sorted x ys
  end.

Definition sorted (xs : list string) : list string :=
  fold_right insert_sorted [] xs.

Fixpoint join (sep : string) (xs : list string) : string :=
  match xs with
  | [] => ""
  | [x] => x
  | x :: xs' => x ++ sep ++ join sep xs'
  end.

(** The [TypeError] that hashing [v] raises, if it does. *)
Definition unhashable (v : pyval) : option exn :=
  match v with
  | PList _ => Some (TypeError "unhashable type: 'list'")
  | PDict _ => Some (TypeError "unhashable type: 'dict'")
  | _ => None
  end.

(** The string is empty or starts with a character that is not white
    space. *)
Definition starts_clean (s : string) : bool :=
  match s with
  | EmptyString => true
  | String c _ => negb (isspace c)
  end.

End Py.

(** ** What pydantic adds around the validators *)

Module Pydantic.
Import Py.

(** One line of a [ValidationError]: where, and what.  [value_error] is a
    [ValueError] raised by a validator of the repository; the other kinds are
    raised by pydantic's built-in validators.  [builtin_error] stands for
    the errors of the built-in validators that the embedding leaves open,
    with the message pydantic gives. *)
Inductive error_type : Type :=
  | value_error (msg : string)
  | missing
  | string_type
  | string_too_short (min_length : nat)
  | string_too_long (max_length : nat)
  | float_type
  | float_parsing
  | enum_error
  | builtin_error (msg : string).

Record error_line : Type := { loc : list string; err : error_type }.

Definition plural (n : nat) : string :=
  match n with 1%nat => "" | _ => "s" end.

Definition decimal (n : nat) : string :=
  NilZero.string_of_uint (Nat.to_uint n).

(** The text pydantic reports for each kind. *)
Definition message (e : error_type) : string :=
  match e with
  | value_error msg => "Value error, " ++ msg
  | missing => "Field required"
  | string_type => "Input should be a valid string"
  | string_too_short n =>
      "String should have at least " ++ decimal n ++ " character" ++ plural n
  | string_too_long n =>
      "String should have at most " ++ decimal n ++ " character" ++ plural n
  | float_type => "Input should be a valid number"
  | float_parsing =>
      "Input should be a valid number, unable to parse string as a number"
  | enum_error =>
      "Input should be 'addition', 'subtraction', 'multiplication' or 'division'"
  | builtin_error msg => msg
  end.

(** The outcome of validating one field. *)
Inductive fresult (A : Type) : Type :=
  | Pass (a : A)
  | Fail (e : error_type)
  | Crash (x : exn).

Arguments Pass {A} a.
Arguments Fail {A} e.
Arguments Crash {A} x.

Definition of_result {A} (r : result A) : fresult A :=
  match r with
  | Ok a => Pass a
  | ValueError msg => Fail (value_error msg)
  | Raise x => Crash x
  end.

Definition fbind {A B} (r : fresult A) (k : A -> fresult B) : fresult B :=
  match r with
  | Pass a => k a
  | Fail e => Fail e
  | Crash x => Crash x
  end.

(** The outcome of validating a model: the typed structure, a
    [ValidationError] with its lines, or an exception that is not a
    validation error. *)
Inductive outcome (A : Type) : Type :=
  | Valid (a : A)
  | Invalid (lines : list error_line)
  | Escapes (x : exn).

Arguments Valid {A} a.
Arguments Invalid {A} lines.
Arguments Escapes {A} x.

(** [str] with [Field(min_length=..., max_length=...)], on an input that is
    a string: the length is checked on the input as it arrives. *)
Definition str_constrained (min_length max_length : nat) (v : string)
  : fresult string :=
  if (String.length v <? min_length)%nat then Fail (string_too_short min_length)
  else if (max_length <? String.length v)%nat then Fail (string_too_long max_length)
  else Pass v.

(** A required field: "Field required" when the key is absent, and no
    validator runs. *)
Definition required {A} (data : gmap string pyval) (k : string)
    (validate : pyval -> fresult A) : fresult A :=
  match data !! k with
  | None => Fail missing
  | Some v => validate v
  end.

(** A field [Optional[T] = None]: the default when the key is absent, [None]
    for a null, the validator of [T] otherwise. *)
Definition optional {A} (data : gmap string pyval) (k : string)
    (validate : pyval -> fresult A) : fresult (option A) :=
  match data !! k with
  | None => Pass None
  | Some PNone => Pass None
  | Some v => fbind (validate v) (fun x => Pass (Some x))
  end.

(** Fields are validated in declaration order.  The lines of the fields
    that fail are collected; an exception that is not a validation error
    ends the validation at once. *)
Definition and_field {A B} (acc : outcome A) (k : string) (r : fresult B)
  : outcome (A * B) :=
  match acc with
  | Escapes x => Escapes x
  | Valid x =>
      match r with
      | Pass y => Valid (x, y)
      | Fail e => Invalid [{| loc := [k]; err := e |}]
      | Crash x => Escapes x
      end
  | Invalid lines =>
      match r with
      | Pass _ => Invalid lines
      | Fail e => Invalid (lines ++ [{| loc := [k]; err := e |}])
      | Crash x => Escapes x
      end
  end.

(** The "after" model validator runs when every field passed. *)
Definition and_then {A B C} (acc : outcome A) (build : A -> B)
    (validate : B -> result B) (finish : B -> C) : outcome C :=
  match acc with
  | Escapes x => Escapes x
  | Invalid lines => Invalid lines
  | Valid x =>
      match validate (build x) with
      | Ok self => Valid (finish self)
      | ValueError msg => Invalid [{| loc := []; err := value_error msg |}]
      | Raise x => Escapes x
      end
  end.

(** The outcome of a built-in validator that the embedding leaves open:
    the value, or the message of the error. *)
Definition of_builtin {A} (r : A + string) : fresult A :=
  match r with
  | inl x => Pass x
  | inr msg => Fail (builtin_error msg)
  end.

(** A model without an "after" validator. *)
Definition and_build {A B} (acc : outcome A) (build : A -> B) : outcome B :=
  and_then acc build Ok (fun self => self).

(** pydantic's validator of [str], in lax mode: text only. *)
Definition str_validator (v : pyval) : fresult string :=
  match v with
  | PStr s => Pass s
  | _ => Fail string_type
  end.

(** The line a failed field adds to the [ValidationError]. *)
Definition lines_of {A} (k : string) (r : fresult A) : list error_line :=
  match r with
  | Fail e => [{| loc := [k]; err := e |}]
  | _ => []
  end.

(** The lines collected so far. *)
Definition pending {A} (o : outcome A) : list error_line :=
  match o with
  | Invalid lines => lines
  | _ => []
  end.

Definition is_pass {A} (r : fresult A) : bool :=
  match r with Pass _ => true | _ => false end.

Definition is_valid {A} (o : outcome A) : bool :=
  match o with Valid _ => true | _ => false end.

Definition is_crash {A} (r : fresult A) : bool :=
  match r with Crash _ => true | _ => false end.

Definition is_escape {A} (o : outcome A) : bool :=
  match o with Escapes _ => true | _ => false end.

End Pydantic.

(** ** [app/schemas/base.py] *)

Module UserSchemas.
Import Py Pydantic.

(** The class [[a-zA-Z\s\-']] *)
Definition name_class (c : ascii) : bool :=
  az c || AZ c || isspace c || (code c =? 45)%N || (code c =? 39)%N.

(** The class [[a-zA-Z0-9_-]] *)
Definition username_class (c : ascii) : bool :=
  az c || AZ c || d09 c || (code c =? 95)%N || (code c =? 45)%N.

(** The class [[a-zA-Z0-9]] *)
Definition alnum_class (c : ascii) : bool := az c || AZ c || d09 c.

Definition name_empty_msg : string := "Name cannot be empty or whitespace only".
Definition name_chars_msg : string :=
  "Name can only contain letters, spaces, hyphens, and apostrophes".

(** [UserBase.validate_name] *)
Definition validate_name (v : string) : result string :=
  if is_empty v || is_empty (strip v) then ValueError name_empty_msg
  else
    let v := strip v in
    if negb (re_match_plus_dollar name_class v) then ValueError name_chars_msg
    else Ok v.

Definition username_empty_msg : string :=
  "Username cannot be empty or whitespace only".
Definition username_chars_msg : string :=
  "Username can only contain letters, numbers, underscores, and hyphens".
Definition username_start_msg : string :=
  "Username must start with a letter or number".

(** [UserBase.validate_username] *)
Definition validate_username (v : string) : result string :=
  if is_empty v || is_empty (strip v) then ValueError username_empty_msg
  else
    let v := strip v in
    if negb (re_match_plus_dollar username_class v) then
      ValueError username_chars_msg
    else if negb (re_match_first alnum_class v) then
      ValueError username_start_msg
    else Ok v.

(** The fields [first_name] and [last_name] of [UserBase]:
    [str, Field(min_length=1, max_length=50)] and then [validate_name], a
    field validator in the default "after" mode. *)
Definition name_field (v : string) : fresult string :=
  fbind (str_constrained 1 50 v) (fun v => of_result (validate_name v)).

(** The field [username] of [UserBase]:
    [str, Field(min_length=3, max_length=50)] and then [validate_username]. *)
Definition username_field (v : string) : fresult string :=
  fbind (str_constrained 3 50 v) (fun v => of_result (validate_username v)).

(** The field [username] of [UserLogin] ("Username or email"): the length
    bounds only, [UserLogin] does not derive from [UserBase]. *)
Definition login_username_field (v : string) : fresult string :=
  str_constrained 3 50 v.

(** *** [PasswordMixin]

    The payload of a user schema maps field names to text; [None] is a JSON
    null.  [values.get("password")] is [None] for an absent key as well. *)

Definition get (values : gmap string (option string)) (k : string)
  : option string :=
  match values !! k with
  | Some v => v
  | None => None
  end.

Definition password_required_msg : string := "Password is required".
Definition password_length_msg : string :=
  "Password must be at least 6 characters long".
Definition password_upper_msg : string :=
  "Password must contain at least one uppercase letter".
Definition password_lower_msg : string :=
  "Password must contain at least one lowercase letter".
Definition password_digit_msg : string :=
  "Password must contain at least one digit".

(** [not password] *)
Definition falsy (password : option string) : bool :=
  match password with
  | None => true
  | Some s => is_empty s
  end.

(** The call [ValidationError(msg, model=cls)].  The [ValidationError] of
    pydantic 2 has no constructor that Python code can call (its instances
    come from [from_exception_data]): the call raises a [TypeError], whatever
    its arguments, and the [raise] statement around it never gets an
    exception to raise. *)
Definition no_constructor_msg : string :=
  "No constructor defined for ValidationError".

Definition ValidationError_call {A} (msg : string) : result A :=
  Raise (TypeError no_constructor_msg).

(** [PasswordMixin.validate_password], a model validator in "before" mode:
    it sees the payload before any field is parsed. *)
Definition validate_password (values : gmap string (option string))
  : result (gmap string (option string)) :=
  let password := get values "password" in
  if falsy password then ValidationError_call password_required_msg
  else
    let password := default "" password in
    if (String.length password <? 6)%nat then ValueError password_length_msg
    else if negb (any isupper password) then ValueError password_upper_msg
    else if negb (any islower password) then ValueError password_lower_msg
    else if negb (any isdigit password) then ValueError password_digit_msg
    else Ok values.

(** The rules of the password, as the specification lists them. *)
Inductive rule : Type := Required | MinLength | Uppercase | Lowercase | Digit.

Definition rule_order : list rule :=
  [Required; MinLength; Uppercase; Lowercase; Digit].

Definition violated (password : option string) (r : rule) : bool :=
  match r with
  | Required => falsy password
  | MinLength => (String.length (default "" password) <? 6)%nat
  | Uppercase => negb (any isupper (default "" password))
  | Lowercase => negb (any islower (default "" password))
  | Digit => negb (any isdigit (default "" password))
  end.

(** First violated rule wins. *)
Definition first_violated (password : option string) : option rule :=
  List.find (violated password) rule_order.

(** The error of each rule: a [ValueError] with the message of the rule,
    which pydantic reports as a validation error. *)
Definition raised_for {A} (r : rule) : result A :=
  match r with
  | Required => ValueError password_required_msg
  | MinLength => ValueError password_length_msg
  | Uppercase => ValueError password_upper_msg
  | Lowercase => ValueError password_lower_msg
  | Digit => ValueError password_digit_msg
  end.

(** What a model with this "before" validator reports for the error of a
    rule: a [ValueError] becomes the one line of a [ValidationError], at the
    level of the model. *)
Definition reported_for {A} (r : rule) : outcome A :=
  match r with
  | Required => Invalid [{| loc := []; err := value_error password_required_msg |}]
  | MinLength => Invalid [{| loc := []; err := value_error password_length_msg |}]
  | Uppercase => Invalid [{| loc := []; err := value_error password_upper_msg |}]
  | Lowercase => Invalid [{| loc := []; err := value_error password_lower_msg |}]
  | Digit => Invalid [{| loc := []; err := value_error password_digit_msg |}]
  end.

(** A login payload without a password. *)
Definition payload_no_password : gmap string (option string) :=
  <["username" := Some "johndoe"]> ∅.

(** A raw field that the schema declares as a string. *)
Definition str_field (min_length max_length : nat)
    (values : gmap string (option string)) (k : string) : fresult string :=
  match values !! k with
  | None => Fail missing
  | Some None => Fail string_type
  | Some (Some s) => str_constrained min_length max_length s
  end.

Record UserLogin : Type := {
  login_password : string;
  login_username : string
}.

(** Building a [UserLogin] from a payload: the "before" model validator,
    then the fields in declaration order ([password] of the mixin, then
    [username]). *)
Definition UserLogin_validate (values : gmap string (option string))
  : outcome UserLogin :=
  match validate_password values with
  | Raise x => Escapes x
  | ValueError msg => Invalid [{| loc := []; err := value_error msg |}]
  | Ok values =>
      and_build
        (and_field
           (and_field (Valid tt) "password" (str_field 6 128 values "password"))
           "username" (str_field 3 50 values "username"))
        (fun x =>
           let '(_, p, u) := x in
           {| login_password := p; login_username := u |})
  end.

(** *** [UserRead] *)

Record UserRead : Type := {
  first_name : string;
  last_name : string;
  email : string;
  username : string;
  id : UUID;
  is_active : bool;
  is_verified : bool;
  last_login : option datetime;
  created_at : datetime;
  updated_at : datetime
}.

Section Read.

(** pydantic's validators of [EmailStr], [UUID], [bool] and [datetime]:
    the value, or the message of the error. *)
Variable email_validator : pyval -> string + string.
Variable uuid_validator : pyval -> UUID + string.
Variable bool_validator : pyval -> bool + string.
Variable datetime_validator : pyval -> datetime + string.

Definition read_name_field (v : pyval) : fresult string :=
  fbind (str_validator v) name_field.

Definition read_username_field (v : pyval) : fresult string :=
  fbind (str_validator v) username_field.

(** Building a [UserRead] from the attributes of a record (or from a
    payload): the declared fields are read, in declaration order, and every
    other attribute is ignored. *)
Definition UserRead_validate (attrs : gmap string pyval) : outcome UserRead :=
  and_build
    (and_field (and_field (and_field (and_field (and_field (and_field
     (and_field (and_field (and_field (and_field (Valid tt)
       "first_name" (required attrs "first_name" read_name_field))
       "last_name" (required attrs "last_name" read_name_field))
       "email"
         (required attrs "email" (fun v => of_builtin (email_validator v))))
       "username" (required attrs "username" read_username_field))
       "id" (required attrs "id" (fun v => of_builtin (uuid_validator v))))
       "is_active"
         (required attrs "is_active"
            (fun v => of_builtin (bool_validator v))))
       "is_verified"
         (required attrs "is_verified"
            (fun v => of_builtin (bool_validator v))))
       "last_login"
         (optional attrs "last_login"
            (fun v => of_builtin (datetime_validator v))))
       "created_at"
         (required attrs "created_at"
            (fun v => of_builtin (datetime_validator v))))
       "updated_at"
         (required attrs "updated_at"
            (fun v => of_builtin (datetime_validator v))))
    (fun x =>
       let '(_, fn, ln, em, un, i, ac, ve, ll, cr, up) := x in
       {| first_name := fn; last_name := ln; email := em; username := un;
          id := i; is_active := ac; is_verified := ve; last_login := ll;
          created_at := cr; updated_at := up |}).

End Read.

(** [model_dump()] of a [UserRead]: the declared fields, in declaration
    order. *)
Definition model_dump (self : UserRead) : list (string * pyval) :=
  [ ("first_name", PStr (first_name self));
    ("last_name", PStr (last_name self));
    ("email", PStr (email self));
    ("username", PStr (username self));
    ("id", PUuid (id self));
    ("is_active", PBool (is_active self));
    ("is_verified", PBool (is_verified self));
    ("last_login",
      match last_login self with Some t => PDatetime t | None => PNone end);
    ("created_at", PDatetime (created_at self));
    ("updated_at", PDatetime (updated_at self)) ].

(** [d.get(k)] on the serialized form *)
Fixpoint dump_get (d : list (string * pyval)) (k : string) : option pyval :=
  match d with
  | [] => None
  | (k', v) :: d' => if String.eqb k' k then Some v else dump_get d' k
  end.

(** Validators that take a value of the declared type as it is (for the
    email, a text that holds an at sign) and read nothing else.  They serve
    to run [UserRead] on a sample record; the theorems are proved for all
    validators. *)
Definition email_of_text (v : pyval) : string + string :=
  match v with
  | PStr s =>
      if any (fun c => (code c =? 64)%N) s then inl s
      else inr "value is not a valid email address"
  | _ => inr "value is not a valid email address"
  end.

Definition uuid_of_object (v : pyval) : UUID + string :=
  match v with
  | PUuid u => inl u
  | _ => inr "Input should be a valid UUID"
  end.

Definition bool_of_object (v : pyval) : bool + string :=
  match v with
  | PBool x => inl x
  | _ => inr "Input should be a valid boolean"
  end.

Definition datetime_of_object (v : pyval) : datetime + string :=
  match v with
  | PDatetime t => inl t
  | _ => inr "Input should be a valid datetime"
  end.

(** A stored user, with a first name that was stored with blanks around
    it. *)
Definition stored_user : gmap string pyval :=
  <["first_name" := PStr " Ada "]>
    (<["last_name" := PStr "Lovelace"]>
       (<["email" := PStr "ada@example.com"]>
          (<["username" := PStr "ada_l"]>
             (<["password" := PStr "Secret1x"]>
                (<["id" := PUuid 1%N]>
                   (<["is_active" := PBool true]>
                      (<["is_verified" := PBool false]>
                         (<["created_at" := PDatetime 0%Z]>
                            (<["updated_at" := PDatetime 0%Z]> ∅))))))))).

Definition read_user : UserRead :=
  {| first_name := "Ada"; last_name := "Lovelace"; email := "ada@example.com";
     username := "ada_l"; id := 1%N; is_active := true; is_verified := false;
     last_login := None; created_at := 0%Z; updated_at := 0%Z |}.

End UserSchemas.

(** ** [app/schemas/calculation.py] *)

Module CalculationSchemas.
Import Py Pydantic.

(** [class CalculationType(str, Enum)] *)
Inductive CalculationType : Type :=
  | ADDITION
  | SUBTRACTION
  | MULTIPLICATION
  | DIVISION.

Definition value (t : CalculationType) : string :=
  match t with
  | ADDITION => "addition"
  | SUBTRACTION => "subtraction"
  | MULTIPLICATION => "multiplication"
  | DIVISION => "division"
  end.

(** The members, in declaration order. *)
Definition members : list CalculationType :=
  [ADDITION; SUBTRACTION; MULTIPLICATION; DIVISION].

Definition is_division (t : CalculationType) : bool :=
  match t with DIVISION => true | _ => false end.

(** pydantic's validator of a field of type [CalculationType]: the member
    whose value is the input text. *)
Definition enum_validator (v : pyval) : fresult CalculationType :=
  match v with
  | PStr s =>
      match List.find (fun t => String.eqb (value t) s) members with
      | Some t => Pass t
      | None => Fail enum_error
      end
  | _ => Fail enum_error
  end.

(** [{e.value for e in CalculationType}] *)
Definition allowed : list string := List.map value members.

Definition type_msg : string :=
  "Type must be one of: " ++ join ", " (sorted allowed).

(** [CalculationBase.validate_type], a "before" validator of [type] *)
Definition validate_type (v : pyval) : result pyval :=
  let v := match v with PStr s => PStr (lower s) | _ => v end in
  match in_str_set v allowed with
  | Raise x => Raise x
  | ValueError msg => ValueError msg
  | Ok false => ValueError type_msg
  | Ok true => Ok v
  end.

Definition operand_missing_msg : string :=
  "Both operands 'a' and 'b' must be provided".
Definition operand_float_msg : string := "Input should be a valid float".

(** [CalculationBase.validate_operand_exists_and_float], a "before"
    validator of [a] and [b] *)
Definition validate_operand_exists_and_float (v : pyval) : result pyval :=
  match v with
  | PNone => ValueError operand_missing_msg
  | _ =>
      if negb (is_float_or_int v) then ValueError operand_float_msg
      else Ok v
  end.

Record CalculationBase : Type := {
  a : float;
  b : float;
  type : CalculationType
}.

Definition divide_msg : string := "Cannot divide by zero".

(** [CalculationBase.validate_operands], an "after" model validator *)
Definition validate_operands (self : CalculationBase)
  : result CalculationBase :=
  if is_division (type self) && eq_zero (b self) then ValueError divide_msg
  else Ok self.

Record CalculationUpdate : Type := {
  update_a : option float;
  update_b : option float;
  update_type : option CalculationType
}.

Definition update_missing_msg : string :=
  "Both operands 'a' and 'b' must be provided for update".

Definition is_none {A} (o : option A) : bool :=
  match o with None => true | Some _ => false end.

(** [CalculationUpdate.validate_operands], an "after" model validator *)
Definition update_validate_operands (self : CalculationUpdate)
  : result CalculationUpdate :=
  if is_none (update_a self) || is_none (update_b self) then
    ValueError update_missing_msg
  else if match update_type self with Some t => is_division t | None => false end
          && eq_zero (default zero (update_b self)) then
    ValueError divide_msg
  else Ok self.

Record CalculationCreate : Type := {
  create_base : CalculationBase;
  create_user_id : UUID
}.

Record CalculationRead : Type := {
  read_base : CalculationBase;
  read_id : UUID;
  read_user_id : UUID;
  read_result : float;
  read_created_at : datetime;
  read_updated_at : datetime
}.

(** *** The models as pydantic runs them

    pydantic's own parsers of text and of foreign objects are not part of
    the repository; the models are stated for any such parsers. *)
Section Models.

(** How pydantic reads a number from text (lax mode of [float]). *)
Variable str_as_float : string -> option float.
(** How pydantic reads a [UUID] and a [datetime] from an input that is not
    an object of that type: the value, or the message of the error. *)
Variable uuid_validator : pyval -> UUID + string.
Variable datetime_validator : pyval -> datetime + string.

(** pydantic's validator of [float], in lax mode. *)
Definition float_validator (v : pyval) : fresult float :=
  match v with
  | PFloat f => Pass f
  | PStr s =>
      match str_as_float s with
      | Some f => Pass f
      | None => Fail float_parsing
      end
  | PInt z =>
      match float_of_int z with
      | Some f => Pass f
      | None => Fail float_type
      end
  | PBool x => Pass (if x then one else zero)
  | _ => Fail float_type
  end.

(** A field of type [UUID]: a [UUID] object passes as it is. *)
Definition uuid_field (v : pyval) : fresult UUID :=
  match v with
  | PUuid u => Pass u
  | _ => of_builtin (uuid_validator v)
  end.

(** A field of type [datetime]: a [datetime] object passes as it is. *)
Definition datetime_field (v : pyval) : fresult datetime :=
  match v with
  | PDatetime t => Pass t
  | _ => of_builtin (datetime_validator v)
  end.

(** The fields of [CalculationBase]: the "before" validator, then the
    validator of the declared type. *)
Definition operand_field (v : pyval) : fresult float :=
  fbind (of_result (validate_operand_exists_and_float v)) float_validator.

Definition type_field (v : pyval) : fresult CalculationType :=
  fbind (of_result (validate_type v)) enum_validator.

Definition base_fields (data : gmap string pyval)
  : outcome (unit * float * float * CalculationType) :=
  and_field
    (and_field
       (and_field (Valid tt) "a" (required data "a" operand_field))
       "b" (required data "b" operand_field))
    "type" (required data "type" type_field).

Definition build_base (x : unit * float * float * CalculationType)
  : CalculationBase :=
  let '(_, fa, fb, t) := x in {| a := fa; b := fb; type := t |}.

(** Building a [CalculationBase] from a payload *)
Definition CalculationBase_validate (data : gmap string pyval)
  : outcome CalculationBase :=
  and_then (base_fields data) build_base validate_operands (fun self => self).

(** Building a [CalculationCreate] from a payload: the fields of the base,
    then [user_id]; the model validator is the inherited one. *)
Definition CalculationCreate_validate (data : gmap string pyval)
  : outcome CalculationCreate :=
  and_then
    (and_field (base_fields data) "user_id" (required data "user_id" uuid_field))
    (fun x => {| create_base := build_base (fst x); create_user_id := snd x |})
    (fun self =>
       match validate_operands (create_base self) with
       | Ok _ => Ok self
       | ValueError msg => ValueError msg
       | Raise x => Raise x
       end)
    (fun self => self).

Definition read_fields (data : gmap string pyval) :=
  and_field
    (and_field
       (and_field
          (and_field
             (and_field (base_fields data) "id" (required data "id" uuid_field))
             "user_id" (required data "user_id" uuid_field))
          "result" (required data "result" float_validator))
       "created_at" (required data "created_at" datetime_field))
    "updated_at" (required data "updated_at" datetime_field).

(** Building a [CalculationRead] from a payload *)
Definition CalculationRead_validate (data : gmap string pyval)
  : outcome CalculationRead :=
  and_then (read_fields data)
    (fun x =>
       let '(base, i, u, r, c, m) := x in
       {| read_base := build_base base; read_id := i; read_user_id := u;
          read_result := r; read_created_at := c; read_updated_at := m |})
    (fun self =>
       match validate_operands (read_base self) with
       | Ok _ => Ok self
       | ValueError msg => ValueError msg
       | Raise x => Raise x
       end)
    (fun self => self).

(** Building a [CalculationUpdate] from a payload: the class derives from
    [BaseModel], not from [CalculationBase], and declares no field
    validator, so each field goes to the validator of its declared type. *)
Definition CalculationUpdate_validate (data : gmap string pyval)
  : outcome CalculationUpdate :=
  and_then
    (and_field
       (and_field
          (and_field (Valid tt) "a" (optional data "a" float_validator))
          "b" (optional data "b" float_validator))
       "type" (optional data "type" enum_validator))
    (fun x =>
       let '(_, fa, fb, t) := x in
       {| update_a := fa; update_b := fb; update_type := t |})
    update_validate_operands
    (fun self => self).

End Models.

(** What the model validator makes of a structure whose fields passed:
    the decision of [validate_operands], as an outcome of the model. *)
Definition divide_error {A} : outcome A :=
  Invalid [{| loc := []; err := value_error divide_msg |}].

Definition checked {A} (base : CalculationBase) (self : A) : outcome A :=
  if is_division (type base) && eq_zero (b base) then divide_error
  else Valid self.

(** The normalized structure of a create request, extended with the fields
    that the server assigns: what the persistence layer hands to
    [CalculationRead]. *)
Definition read_payload (c : CalculationCreate) (i : UUID) (r : float)
    (created updated : datetime) : gmap string pyval :=
  <["id" := PUuid i]>
    (<["user_id" := PUuid (create_user_id c)]>
       (<["a" := PFloat (a (create_base c))]>
          (<["b" := PFloat (b (create_base c))]>
             (<["type" := PStr (value (type (create_base c)))]>
                (<["result" := PFloat r]>
                   (<["created_at" := PDatetime created]>
                      (<["updated_at" := PDatetime updated]> ∅))))))).

(** Parsers that read nothing: with them the models accept numbers, UUID
    objects and datetime objects only.  They serve to run the models on
    payloads that hold no text in those fields; the theorems are proved for
    all parsers. *)
Definition no_number_text : string -> option float := fun _ => None.
Definition no_uuid_text : pyval -> UUID + string :=
  fun _ => inr "Input should be a valid UUID".
Definition no_datetime_text : pyval -> datetime + string :=
  fun _ => inr "Input should be a valid datetime".

(** The outcome is a [ValidationError] that holds the line [l]. *)
Definition reports {A} (o : outcome A) (l : error_line) : Prop :=
  match o with
  | Invalid lines => In l lines
  | _ => False
  end.

Definition two : float := S754_finite false 4503599627370496 (-51).

(** The payloads of the scenarios. *)
Definition payload_true_plus_two : gmap string pyval :=
  <["a" := PBool true]> (<["b" := PInt 2%Z]> (<["type" := PStr "addition"]> ∅)).

Definition payload_divide_by_zero : gmap string pyval :=
  <["a" := PInt 100%Z]> (<["b" := PInt 0%Z]> (<["type" := PStr "division"]> ∅)).

Definition payload_update_42_7 : gmap string pyval :=
  <["a" := PInt 42%Z]> (<["b" := PInt 7%Z]> ∅).

Definition payload_update_list : gmap string pyval :=
  <["a" := PList []]> (<["b" := PInt 7%Z]> ∅).

Definition payload_update_capital : gmap string pyval :=
  <["a" := PInt 1%Z]> (<["b" := PInt 2%Z]> (<["type" := PStr "Addition"]> ∅)).

Definition payload_modulus : gmap string pyval :=
  <["a" := PInt 1%Z]> (<["b" := PInt 2%Z]> (<["type" := PStr "modulus"]> ∅)).

Definition payload_create : gmap string pyval :=
  <["a" := PFloat two]>
    (<["b" := PInt 3%Z]>
       (<["type" := PStr "Multiplication"]> (<["user_id" := PUuid 7%N]> ∅))).

Definition payload_update_null : gmap string pyval :=
  <["a" := PNone]> (<["b" := PInt 7%Z]> ∅).

Definition payload_b_null : gmap string pyval :=
  <["type" := PStr "multiplication"]> (<["a" := PInt 1%Z]> (<["b" := PNone]> ∅)).

Definition three : float := S754_finite false 6755399441055744 (-51).

(** What [payload_create] normalizes to. *)
Definition created_sample : CalculationCreate :=
  {| create_base := {| a := two; b := three; type := MULTIPLICATION |};
     create_user_id := 7%N |}.

(** The line of the model validator for a division by zero. *)
Definition divide_line : error_line :=
  {| loc := []; err := value_error divide_msg |}.

Definition payload_empty : gmap string pyval := ∅.

Definition payload_bad_operands : gmap string pyval :=
  <["a" := PStr "x"]> (<["b" := PNone]> ∅).

Definition payload_type_list : gmap string pyval :=
  <["a" := PStr "x"]> (<["b" := PNone]> (<["type" := PList []]> ∅)).

Definition payload_zero_sum : gmap string pyval :=
  <["a" := PInt 1%Z]> (<["b" := PInt 0%Z]> (<["type" := PStr "ADDITION"]> ∅)).

Definition payload_update_divide : gmap string pyval :=
  <["a" := PInt 1%Z]> (<["b" := PFloat (S754_zero true)]>
                         (<["type" := PStr "division"]> ∅)).

Definition payload_update_zero : gmap string pyval :=
  <["a" := PInt 1%Z]> (<["b" := PInt 0%Z]> ∅).

End CalculationSchemas.

(** * Properties *)

(** ** Strings *)

Module StringFacts.
Import Py.

Lemma strip_empty : strip "" = "".
Proof. reflexivity. Qed.

Lemma is_empty_true (s : string) : is_empty s = true <-> s = "".
Proof. destruct s; simpl; split; congruence. Qed.

Lemma is_empty_false (s : string) : is_empty s = false <-> s <> "".
Proof. destruct s; simpl; split; congruence. Qed.

Lemma is_empty_strip (v : string) :
  is_empty v || is_empty (strip v) = is_empty (strip v).
Proof. destruct v; reflexivity. Qed.

Lemma lstrip_length (s : string) : (String.length (lstrip s) <= String.length s)%nat.
Proof.
  induction s as [|c s IH]; simpl; [lia|].
  destruct (isspace c); simpl; lia.
Qed.

Lemma rstrip_length (s : string) : (String.length (rstrip s) <= String.length s)%nat.
Proof.
  induction s as [|c s IH]; simpl; [lia|].
  destruct (rstrip s) as [|c' r]; simpl in *; [destruct (isspace c); simpl; lia | lia].
Qed.

Lemma strip_length (s : string) : (String.length (strip s) <= String.length s)%nat.
Proof.
  unfold strip. pose proof (rstrip_length (lstrip s)). pose proof (lstrip_length s). lia.
Qed.

(** Trimming leaves no white space at the end. *)
Lemma rstrip_last (s : string) : last_is isspace (rstrip s) = false.
Proof.
  induction s as [|c s IH]; simpl; [reflexivity|].
  destruct (rstrip s) as [|c' r].
  - destruct (isspace c) eqn:E; simpl; [reflexivity | exact E].
  - exact IH.
Qed.

Lemma strip_last (s : string) : last_is isspace (strip s) = false.
Proof. apply rstrip_last. Qed.

Lemma last_is_mono (p q : ascii -> bool) (s : string) :
  (forall c, p c = true -> q c = true) ->
  last_is p s = true -> last_is q s = true.
Proof.
  intros Hpq. induction s as [|c s IH]; simpl; [congruence|].
  destruct s; auto.
Qed.

Lemma newline_isspace (c : ascii) : (code c =? 10)%N = true -> isspace c = true.
Proof.
  intros H. apply N.eqb_eq in H. unfold isspace, between. rewrite H. reflexivity.
Qed.

(** Every character in the class: the pattern matches. *)
Lemma all_re_match (cls : ascii -> bool) (s : string) :
  s <> "" -> all cls s = true -> re_match_plus_dollar cls s = true.
Proof.
  induction s as [|c s IH]; [congruence|].
  intros _ H. simpl in *. apply andb_true_iff in H as [Hc Hs].
  rewrite Hc. simpl. destruct s as [|c' s']; [reflexivity|].
  rewrite IH by (assumption || congruence). apply orb_true_r.
Qed.

(** The pattern matches: every character is in the class, unless the
    string ends with a newline that [$] skipped. *)
Lemma re_match_all (cls : ascii -> bool) (s : string) :
  re_match_plus_dollar cls s = true ->
  last_is (fun c => (code c =? 10)%N) s = false ->
  all cls s = true.
Proof.
  induction s as [|c s IH]; simpl; [congruence|].
  intros H Hl. apply andb_true_iff in H as [Hc H]. rewrite Hc. simpl.
  destruct s as [|c' s']; [reflexivity|].
  apply orb_true_iff in H as [H|H].
  - simpl in H. destruct s'; [|discriminate]. simpl in Hl. congruence.
  - apply IH; assumption.
Qed.

Lemma re_match_nonempty (cls : ascii -> bool) (s : string) :
  re_match_plus_dollar cls s = true -> s <> "".
Proof. destruct s; simpl; congruence. Qed.

(** On a trimmed string the pattern [^[C]+$] says: not empty, and every
    character in the class. *)
Lemma re_match_strip (cls : ascii -> bool) (v : string) :
  re_match_plus_dollar cls (strip v) =
  negb (is_empty (strip v)) && all cls (strip v).
Proof.
  assert (Hl : last_is (fun c => (code c =? 10)%N) (strip v) = false).
  { destruct (last_is _ (strip v)) eqn:E; [|reflexivity].
    apply (last_is_mono _ isspace) in E; [|exact newline_isspace].
    rewrite strip_last in E. discriminate. }
  destruct (re_match_plus_dollar cls (strip v)) eqn:E.
  - rewrite (re_match_all _ _ E Hl).
    apply re_match_nonempty, is_empty_false in E. rewrite E. reflexivity.
  - destruct (is_empty (strip v)) eqn:Ee; [reflexivity|]. simpl.
    destruct (all cls (strip v)) eqn:Ea; [|reflexivity].
    rewrite all_re_match in E; [discriminate| |assumption].
    apply is_empty_false. assumption.
Qed.

End StringFacts.

(** ** User schemas *)

Module UserProperties.
Import Py Pydantic UserSchemas StringFacts.

Lemma str_constrained_pass (lo hi : nat) (v w : string) :
  str_constrained lo hi v = Pass w <->
  (lo <= String.length v <= hi)%nat /\ w = v.
Proof.
  unfold str_constrained.
  destruct (Nat.ltb_spec (String.length v) lo); [split; [discriminate|lia]|].
  destruct (Nat.ltb_spec hi (String.length v)); [split; [discriminate|lia]|].
  split; [intros [= <-]; split; [lia|reflexivity] | intros [_ ->]; reflexivity].
Qed.

(** The name validator as a decision on the trimmed input. *)
Lemma validate_name_eq (v : string) :
  validate_name v =
  if is_empty (strip v) then ValueError name_empty_msg
  else if all name_class (strip v) then Ok (strip v)
  else ValueError name_chars_msg.
Proof.
  unfold validate_name. rewrite is_empty_strip.
  destruct (is_empty (strip v)) eqn:E; [reflexivity|].
  rewrite re_match_strip, E. simpl.
  destruct (all name_class (strip v)); reflexivity.
Qed.

Lemma validate_username_eq (v : string) :
  validate_username v =
  if is_empty (strip v) then ValueError username_empty_msg
  else if negb (all username_class (strip v)) then
    ValueError username_chars_msg
  else if negb (re_match_first alnum_class (strip v)) then
    ValueError username_start_msg
  else Ok (strip v).
Proof.
  unfold validate_username. rewrite is_empty_strip.
  destruct (is_empty (strip v)) eqn:E; [reflexivity|].
  rewrite re_match_strip, E. reflexivity.
Qed.

(** C7, as the code has it: a first or last name is accepted exactly when
    the input as given is 1 to 50 characters long and its trimmed form is not
    empty and holds only letters, white space, hyphens and apostrophes; the
    accepted value is the trimmed input.  A rejected input gets the length
    error of the field (too short, too long), the "empty or whitespace"
    message or the "invalid characters" message. *)
Theorem name_field_accepts_iff (v : string) :
  (forall w,
     name_field v = Pass w <->
     (1 <= String.length v <= 50)%nat /\ strip v <> "" /\
     all name_class (strip v) = true /\ w = strip v)
  /\ name_field v =
     if (String.length v <? 1)%nat then Fail (string_too_short 1)
     else if (50 <? String.length v)%nat then Fail (string_too_long 50)
     else if is_empty (strip v) then Fail (value_error name_empty_msg)
     else if all name_class (strip v) then Pass (strip v)
     else Fail (value_error name_chars_msg).
Proof.
  assert (Heq : name_field v =
     if (String.length v <? 1)%nat then Fail (string_too_short 1)
     else if (50 <? String.length v)%nat then Fail (string_too_long 50)
     else if is_empty (strip v) then Fail (value_error name_empty_msg)
     else if all name_class (strip v) then Pass (strip v)
     else Fail (value_error name_chars_msg)).
  { unfold name_field, str_constrained.
    destruct (String.length v <? 1)%nat; [reflexivity|].
    destruct (50 <? String.length v)%nat; [reflexivity|].
    simpl. rewrite validate_name_eq.
    destruct (is_empty (strip v)); [reflexivity|].
    destruct (all name_class (strip v)); reflexivity. }
  split; [|exact Heq].
  intros w. rewrite Heq.
  destruct (Nat.ltb_spec (String.length v) 1); [split; [discriminate|lia]|].
  destruct (Nat.ltb_spec 50 (String.length v)); [split; [discriminate|lia]|].
  destruct (is_empty (strip v)) eqn:E.
  { apply is_empty_true in E. split; [discriminate|]. intros (_ & Hn & _). congruence. }
  apply is_empty_false in E.
  destruct (all name_class (strip v)) eqn:Ea.
  - split.
    + intros [= <-]. repeat split; (lia || assumption).
    + intros (_ & _ & _ & ->). reflexivity.
  - split; [discriminate|]. intros (_ & _ & Ha & _). discriminate.
Qed.

(** C7, as stated, fails: "John" followed by 47 spaces is 51 characters
    long.  Trimmed it is "John", 4 characters that match the pattern, yet
    the field rejects it, and with the length error of the field, not with
    one of the two messages of the validator. *)
Lemma name_padded_rejected :
  let v := "John                                               " in
  strip v = "John"
  /\ String.length (strip v) = 4%nat
  /\ re_match_plus_dollar name_class (strip v) = true
  /\ name_field v = Fail (string_too_long 50)
  /\ message (string_too_long 50) = "String should have at most 50 characters".
Proof. vm_compute. repeat split. Qed.

Lemma username_field_eq (v : string) :
  username_field v =
  if (String.length v <? 3)%nat then Fail (string_too_short 3)
  else if (50 <? String.length v)%nat then Fail (string_too_long 50)
  else if is_empty (strip v) then Fail (value_error username_empty_msg)
  else if negb (all username_class (strip v)) then
    Fail (value_error username_chars_msg)
  else if negb (re_match_first alnum_class (strip v)) then
    Fail (value_error username_start_msg)
  else Pass (strip v).
Proof.
  unfold username_field, str_constrained.
  destruct (String.length v <? 3)%nat; [reflexivity|].
  destruct (50 <? String.length v)%nat; [reflexivity|].
  simpl. rewrite validate_username_eq.
  destruct (is_empty (strip v)); [reflexivity|].
  destruct (negb (all username_class (strip v))); [reflexivity|].
  destruct (negb (re_match_first alnum_class (strip v))); reflexivity.
Qed.

(** C6, as the code has it, for the schemas that derive from [UserBase]:
    an input whose trimmed form is empty, holds a character outside
    [a-zA-Z0-9_-] or does not start with a letter or a digit is rejected;
    when the input is 3 to 50 characters long the three cases get three
    different messages; an accepted username is the trimmed input, holds
    only characters of the class, starts with a letter or a digit and is 1
    to 50 characters long.  The username of [UserLogin] is accepted as it is
    when it is 3 to 50 characters long. *)
Theorem username_field_rejects (v : string) :
  (strip v = "" \/ all username_class (strip v) = false \/
   re_match_first alnum_class (strip v) = false ->
   exists e, username_field v = Fail e)
  /\ ((3 <= String.length v <= 50)%nat ->
      (strip v = "" ->
       username_field v = Fail (value_error username_empty_msg))
      /\ (strip v <> "" -> all username_class (strip v) = false ->
          username_field v = Fail (value_error username_chars_msg))
      /\ (strip v <> "" -> all username_class (strip v) = true ->
          re_match_first alnum_class (strip v) = false ->
          username_field v = Fail (value_error username_start_msg)))
  /\ (forall w,
        username_field v = Pass w ->
        w = strip v /\ all username_class w = true /\
        re_match_first alnum_class w = true /\
        (1 <= String.length w <= 50)%nat)
  /\ (String.eqb username_empty_msg username_chars_msg = false
      /\ String.eqb username_empty_msg username_start_msg = false
      /\ String.eqb username_chars_msg username_start_msg = false)
  /\ ((3 <= String.length v <= 50)%nat -> login_username_field v = Pass v).
Proof.
  rewrite username_field_eq.
  split; [|split; [|split; [|split]]].
  - intros H.
    destruct (String.length v <? 3)%nat; [eauto|].
    destruct (50 <? String.length v)%nat; [eauto|].
    destruct (is_empty (strip v)) eqn:E; [eauto|].
    destruct (all username_class (strip v)) eqn:Ea; simpl; [|eauto].
    destruct (re_match_first alnum_class (strip v)) eqn:Ef; simpl; [|eauto].
    apply is_empty_false in E. destruct H as [H|[H|H]]; congruence.
  - intros Hlen.
    destruct (Nat.ltb_spec (String.length v) 3); [lia|].
    destruct (Nat.ltb_spec 50 (String.length v)); [lia|].
    split; [|split].
    + intros ->. reflexivity.
    + intros Hne Ha. apply is_empty_false in Hne. rewrite Hne, Ha. reflexivity.
    + intros Hne Ha Hf. apply is_empty_false in Hne.
      rewrite Hne, Ha, Hf. reflexivity.
  - intros w.
    destruct (Nat.ltb_spec (String.length v) 3); [discriminate|].
    destruct (Nat.ltb_spec 50 (String.length v)); [discriminate|].
    destruct (is_empty (strip v)) eqn:E; [discriminate|].
    destruct (all username_class (strip v)) eqn:Ea; simpl; [|discriminate].
    destruct (re_match_first alnum_class (strip v)) eqn:Ef; simpl; [|discriminate].
    intros [= <-]. pose proof (strip_length v).
    repeat split; try assumption; [|lia].
    revert E. destruct (strip v); [discriminate|simpl; lia].
  - vm_compute. repeat split.
  - intros Hlen. apply str_constrained_pass. split; [exact Hlen|reflexivity].
Qed.

(** A username that the schema accepts, and what the theorem says of it. *)
Lemma username_field_rejects_witness :
  username_field "johndoe" = Pass "johndoe"
  /\ ("johndoe" = strip "johndoe" /\ all username_class "johndoe" = true /\
      re_match_first alnum_class "johndoe" = true /\
      (1 <= String.length "johndoe" <= 50)%nat).
Proof.
  split; [reflexivity|].
  apply (proj1 (proj2 (proj2 (username_field_rejects "johndoe")))).
  reflexivity.
Defined.

(** C6, as stated, fails: the input "  a  " does not match the pattern and
    is accepted, and the accepted username "a" is one character long (the
    length bound is checked on the input before it is trimmed).  The
    username of [UserLogin] has no pattern at all. *)
Lemma username_short_accepted :
  re_match_plus_dollar username_class "  a  " = false
  /\ username_field "  a  " = Pass "a"
  /\ String.length "a" = 1%nat
  /\ login_username_field "a@b.c!" = Pass "a@b.c!".
Proof. vm_compute. repeat split. Qed.

(** C5: the password validator checks the rules in the order required,
    length, uppercase, lowercase, digit, and for a password that is present
    and not empty it reports the first rule that is violated, as does a model
    that carries the validator ("alllower1" gets the missing-uppercase
    message).  The first rule is not reported: for a password that is absent,
    null or empty the validator calls [ValidationError(...)], which raises a
    [TypeError], so no "Password is required" error is reported and the
    [TypeError] escapes from the validation; a login payload without a
    password shows it. *)
Theorem password_required_not_reported (values : gmap string (option string)) :
  match first_violated (get values "password") with
  | Some Required =>
      validate_password values = Raise (TypeError no_constructor_msg)
      /\ UserLogin_validate values = Escapes (TypeError no_constructor_msg)
  | Some r =>
      validate_password values = raised_for r
      /\ UserLogin_validate values = reported_for r
  | None => validate_password values = Ok values
  end
  /\ validate_password (<["password" := Some "alllower1"]> values)
     = ValueError password_upper_msg
  /\ first_violated (get payload_no_password "password") = Some Required
  /\ raised_for (A := gmap string (option string)) Required
     = ValueError password_required_msg
  /\ validate_password payload_no_password
     = Raise (TypeError no_constructor_msg)
  /\ UserLogin_validate payload_no_password
     = Escapes (TypeError no_constructor_msg)
  /\ validate_password (<["password" := Some ""]> payload_no_password)
     = Raise (TypeError no_constructor_msg).
Proof.
  split; [|split; [|repeat split]].
  - unfold UserLogin_validate, validate_password, first_violated, rule_order.
    simpl. destruct (falsy (get values "password")); [split; reflexivity|].
    destruct (String.length (default "" (get values "password")) <? 6)%nat;
      [split; reflexivity|].
    destruct (any isupper (default "" (get values "password")));
      [|split; reflexivity].
    destruct (any islower (default "" (get values "password")));
      [|split; reflexivity].
    destruct (any isdigit (default "" (get values "password")));
      [|split; reflexivity].
    reflexivity.
  - unfold validate_password, get. rewrite lookup_insert_eq. reflexivity.
Qed.

(** The keys of the serialized form. *)
Lemma model_dump_keys (r : UserRead) :
  List.map fst (model_dump r) =
  ["first_name"; "last_name"; "email"; "username"; "id"; "is_active";
   "is_verified"; "last_login"; "created_at"; "updated_at"].
Proof. reflexivity. Qed.

Section ReadProperties.

Variable email_validator : pyval -> string + string.
Variable uuid_validator : pyval -> UUID + string.
Variable bool_validator : pyval -> bool + string.
Variable datetime_validator : pyval -> datetime + string.

Let validate :=
  UserRead_validate email_validator uuid_validator bool_validator
    datetime_validator.

(** C9: the read form of a user has no password: the serialized form of
    any [UserRead] has no "password" key, and a "password" among the input
    attributes, whatever its value, changes nothing in what [UserRead]
    builds from them. *)
Theorem user_read_never_holds_password :
  (forall r : UserRead, dump_get (model_dump r) "password" = None)
  /\ (forall (attrs : gmap string pyval) (pw : pyval),
        validate (<["password" := pw]> attrs) = validate attrs)
  /\ (forall attrs : gmap string pyval,
        validate (delete "password" attrs) = validate attrs).
Proof.
  split; [reflexivity|]. split.
  - intros attrs pw. unfold validate, UserRead_validate, required, optional.
    rewrite !lookup_insert_ne by done. reflexivity.
  - intros attrs. unfold validate, UserRead_validate, required, optional.
    rewrite !lookup_delete_ne by done. reflexivity.
Qed.

End ReadProperties.

End UserProperties.

(** ** Numbers

    An integer that is not zero is converted to a float that is not zero:
    rounding keeps at least one bit of the integer. *)

Module FloatFacts.
Import Py.
#[local] Open Scope Z_scope.

(** One shift to the right halves the mantissa. *)
Lemma shr_1_m (mrs : shr_record) :
  0 <= shr_m mrs -> shr_m (shr_1 mrs) = shr_m mrs / 2.
Proof.
  destruct mrs as [m r s]. simpl. intros Hm.
  destruct m as [|[p|p|]|p]; simpl; try lia; try reflexivity.
  - apply Z.div_unique with 1; lia.
  - apply Z.div_unique with 0; lia.
Qed.

Lemma iter_shr_1_m (n : positive) :
  forall mrs, 0 <= shr_m mrs ->
  shr_m (SpecFloat.iter_pos shr_1 n mrs) = shr_m mrs / 2 ^ Zpos n.
Proof.
  induction n as [n IH|n IH|]; intros mrs Hm; simpl SpecFloat.iter_pos.
  - assert (H1 : 0 <= shr_m (shr_1 mrs)) by (rewrite shr_1_m by lia; apply Z.div_pos; lia).
    assert (H2 : 0 <= shr_m (SpecFloat.iter_pos shr_1 n (shr_1 mrs))).
    { rewrite IH by lia. apply Z.div_pos; [lia|]. apply Z.pow_pos_nonneg; lia. }
    rewrite IH, IH, shr_1_m by lia.
    replace (Z.pos n~1) with (1 + Z.pos n + Z.pos n) by lia.
    rewrite !Z.pow_add_r, Z.pow_1_r by lia.
    rewrite !Z.div_div; try lia; try (apply Z.pow_pos_nonneg; lia).
    all: try (apply Z.mul_pos_pos; try lia; apply Z.pow_pos_nonneg; lia).
    f_equal. lia.
  - assert (H2 : 0 <= shr_m (SpecFloat.iter_pos shr_1 n mrs)).
    { rewrite IH by lia. apply Z.div_pos; [lia|]. apply Z.pow_pos_nonneg; lia. }
    rewrite IH, IH by lia.
    replace (Z.pos n~0) with (Z.pos n + Z.pos n) by lia.
    rewrite !Z.pow_add_r by lia.
    rewrite !Z.div_div; try lia; try (apply Z.pow_pos_nonneg; lia).
  - rewrite shr_1_m by lia. reflexivity.
Qed.

Lemma digits2_size (p : positive) : digits2_pos p = Pos.size p.
Proof. induction p; simpl; congruence. Qed.

Lemma digits2_le (p : positive) : 2 ^ Zpos (digits2_pos p) <= 2 * Zpos p.
Proof.
  rewrite digits2_size. pose proof (Pos.size_le p) as H.
  apply Pos2Z.pos_le_pos in H. rewrite Pos2Z.inj_pow in H.
  rewrite Pos2Z.inj_xO in H. exact H.
Qed.

Lemma shr_record_of_loc_m (m : Z) (l : location) :
  shr_m (shr_record_of_loc m l) = m.
Proof. destruct l as [|[| |]]; reflexivity. Qed.

Lemma round_nearest_even_ge (m : Z) (l : location) :
  m <= round_nearest_even m l.
Proof. destruct l as [|[| |]]; simpl; try destruct (Z.even m); lia. Qed.

Lemma fexp_ge (e : Z) : -1074 <= fexp prec emax e /\ e - 53 <= fexp prec emax e.
Proof. unfold fexp, emin, prec, emax. lia. Qed.

Lemma fexp_cases (e : Z) : fexp prec emax e = e - 53 \/ fexp prec emax e = -1074.
Proof. unfold fexp, emin, prec, emax. lia. Qed.

(** Shifting to the exponent of the format leaves a positive mantissa
    positive: fewer bits are dropped than the mantissa has. *)
Lemma shr_fexp_pos (m e : Z) (l : location) :
  0 < m -> -1074 <= e ->
  0 < shr_m (fst (shr_fexp prec emax m e l))
  /\ -1074 <= snd (shr_fexp prec emax m e l).
Proof.
  intros Hm He. unfold shr_fexp, shr.
  destruct m as [|p|p]; try lia. cbn [Zdigits2].
  pose proof (fexp_cases (Z.pos (digits2_pos p) + e)) as Hf.
  pose proof (digits2_le p) as Hd.
  destruct (fexp prec emax (Z.pos (digits2_pos p) + e) - e) as [|k|k] eqn:En;
    cbn [fst snd]; rewrite ?shr_record_of_loc_m; try lia.
  rewrite iter_shr_1_m by (rewrite shr_record_of_loc_m; lia).
  rewrite shr_record_of_loc_m. split; [|lia].
  apply Z.div_str_pos. split; [apply Z.pow_pos_nonneg; lia|].
  assert (Hk : Z.pos k <= Z.pos (digits2_pos p) - 1) by lia.
  apply (Z.pow_le_mono_r 2) in Hk; [|lia].
  assert (2 * 2 ^ (Z.pos (digits2_pos p) - 1) = 2 ^ Z.pos (digits2_pos p)).
  { rewrite <- Z.pow_succ_r by lia. f_equal. lia. }
  lia.
Qed.

Lemma binary_round_aux_finite (sx : bool) (mx ex : Z) (lx : location) :
  0 < mx -> -1074 <= ex ->
  match binary_round_aux prec emax sx mx ex lx with
  | S754_zero _ | S754_nan => False
  | _ => True
  end.
Proof.
  intros Hm He. unfold binary_round_aux.
  pose proof (shr_fexp_pos mx ex lx Hm He) as [H1 H1'].
  destruct (shr_fexp prec emax mx ex lx) as [mrs' e']. cbn [fst snd] in *.
  pose proof (round_nearest_even_ge (shr_m mrs') (loc_of_shr_record mrs')) as Hr.
  pose proof (shr_fexp_pos (round_nearest_even (shr_m mrs') (loc_of_shr_record mrs'))
                e' loc_Exact ltac:(lia) H1') as [H2 _].
  destruct (shr_fexp prec emax _ e' loc_Exact) as [mrs'' e'']. cbn [fst] in *.
  destruct (shr_m mrs''); try lia.
  destruct (e'' <=? emax - prec); exact I.
Qed.

Lemma binary_round_finite (sx : bool) (p : positive) :
  match binary_round prec emax sx p 0 with
  | S754_zero _ | S754_nan => False
  | _ => True
  end.
Proof.
  unfold binary_round, shl_align.
  pose proof (fexp_ge (Z.pos (digits2_pos p) + 0)) as [Hf _].
  destruct (fexp prec emax (Z.pos (digits2_pos p) + 0) - 0);
    apply binary_round_aux_finite; lia.
Qed.

(** [float(z) == 0] exactly when [z == 0]. *)
Lemma float_of_int_eq_zero (z : Z) (f : float) :
  float_of_int z = Some f -> eq_zero f = (z =? 0).
Proof.
  unfold float_of_int, binary_normalize.
  destruct z as [|p|p].
  - intros [= <-]. reflexivity.
  - pose proof (binary_round_finite false p) as H.
    destruct (binary_round prec emax false p 0); try contradiction; try discriminate.
    intros [= <-]. destruct s; reflexivity.
  - pose proof (binary_round_finite true p) as H.
    destruct (binary_round prec emax true p 0); try contradiction; try discriminate.
    intros [= <-]. destruct s; reflexivity.
Qed.

End FloatFacts.

(** ** Calculation schemas *)

Module CalculationProperties.
Import Py Pydantic CalculationSchemas.

(** [x == 0] holds of the two zeros and of nothing else. *)
Lemma eq_zero_iff (x : float) :
  eq_zero x = true <-> x = S754_zero false \/ x = S754_zero true.
Proof.
  destruct x as [[|]|[|]| |[|] m e]; vm_compute; intuition congruence.
Qed.

Lemma value_inj (t u : CalculationType) : value t = value u -> t = u.
Proof. destruct t, u; simpl; congruence. Qed.

Lemma lower_value (t : CalculationType) : lower (value t) = value t.
Proof. destruct t; reflexivity. Qed.

(** The member whose value is [s]. *)
Lemma find_member (s : string) (t : CalculationType) :
  List.find (fun u => String.eqb (value u) s) members = Some t <-> s = value t.
Proof.
  unfold members. cbn [List.find value].
  destruct (String.eqb_spec "addition" s) as [<-|H1].
  { split; [intros [= <-]; reflexivity | intros H; f_equal; apply value_inj; exact H]. }
  destruct (String.eqb_spec "subtraction" s) as [<-|H2].
  { split; [intros [= <-]; reflexivity | intros H; f_equal; apply value_inj; exact H]. }
  destruct (String.eqb_spec "multiplication" s) as [<-|H3].
  { split; [intros [= <-]; reflexivity | intros H; f_equal; apply value_inj; exact H]. }
  destruct (String.eqb_spec "division" s) as [<-|H4].
  { split; [intros [= <-]; reflexivity | intros H; f_equal; apply value_inj; exact H]. }
  split; [discriminate|]. intros ->. destruct t; simpl in *; congruence.
Qed.

Lemma find_member_value (t : CalculationType) :
  List.find (fun u => String.eqb (value u) (value t)) members = Some t.
Proof. apply find_member. reflexivity. Qed.

(** Membership in the allowed set, and the member found, agree. *)
Lemma allowed_find (s : string) :
  existsb (String.eqb s) allowed =
  match List.find (fun u => String.eqb (value u) s) members with
  | Some _ => true
  | None => false
  end.
Proof.
  unfold allowed, members. cbn [List.map existsb List.find value].
  rewrite !(String.eqb_sym s).
  destruct (String.eqb "addition" s); [reflexivity|].
  destruct (String.eqb "subtraction" s); [reflexivity|].
  destruct (String.eqb "multiplication" s); [reflexivity|].
  destruct (String.eqb "division" s); reflexivity.
Qed.

(** The [type] field of [CalculationBase] on text. *)
Lemma type_field_text (s : string) :
  type_field (PStr s) =
  match List.find (fun u => String.eqb (value u) (lower s)) members with
  | Some t => Pass t
  | None => Fail (value_error type_msg)
  end.
Proof.
  unfold type_field, validate_type, in_str_set. rewrite allowed_find.
  destruct (List.find _ members) as [t|] eqn:E;
    cbn [of_result fbind enum_validator]; [|reflexivity].
  rewrite E. reflexivity.
Qed.

Lemma type_field_value (t : CalculationType) :
  type_field (PStr (value t)) = Pass t.
Proof. rewrite type_field_text, lower_value, find_member_value. reflexivity. Qed.

(** Only text reaches the enum parser. *)
Lemma type_field_pass (v : pyval) (t : CalculationType) :
  type_field v = Pass t -> exists s, v = PStr s /\ lower s = value t.
Proof.
  destruct v; try discriminate.
  rewrite type_field_text.
  destruct (List.find _ members) as [u|] eqn:E; [|discriminate].
  intros [= <-]. apply find_member in E. eauto.
Qed.

Section ModelProperties.

Variable str_as_float : string -> option float.
Variable uuid_validator : pyval -> UUID + string.
Variable datetime_validator : pyval -> datetime + string.

#[local] Abbreviation operand_field := (operand_field str_as_float).
#[local] Abbreviation float_validator := (float_validator str_as_float).
#[local] Abbreviation uuid_field := (uuid_field uuid_validator).
#[local] Abbreviation datetime_field := (datetime_field datetime_validator).
#[local] Abbreviation CalculationBase_validate := (CalculationBase_validate str_as_float).
#[local] Abbreviation CalculationCreate_validate :=
  (CalculationCreate_validate str_as_float uuid_validator).
#[local] Abbreviation CalculationRead_validate :=
  (CalculationRead_validate str_as_float uuid_validator datetime_validator).
#[local] Abbreviation CalculationUpdate_validate :=
  (CalculationUpdate_validate str_as_float).

(** The three fields of the base pass: the model validator decides. *)
Lemma base_fields_pass (data : gmap string pyval) (va vb vt : pyval)
    (fa fb : float) (t : CalculationType) :
  data !! "a" = Some va -> data !! "b" = Some vb -> data !! "type" = Some vt ->
  operand_field va = Pass fa -> operand_field vb = Pass fb ->
  type_field vt = Pass t ->
  base_fields str_as_float data = Valid (tt, fa, fb, t).
Proof.
  intros Ha Hb Ht Hfa Hfb Hft. unfold base_fields, required.
  rewrite Ha, Hb, Ht, Hfa, Hfb, Hft. reflexivity.
Qed.

(** The fields of the base pass only on a payload that holds all three,
    each accepted by its validators. *)
Lemma base_fields_valid (data : gmap string pyval) (fa fb : float)
    (t : CalculationType) :
  base_fields str_as_float data = Valid (tt, fa, fb, t) ->
  exists va vb vt,
    data !! "a" = Some va /\ data !! "b" = Some vb /\ data !! "type" = Some vt /\
    operand_field va = Pass fa /\ operand_field vb = Pass fb /\
    type_field vt = Pass t.
Proof.
  unfold base_fields, required.
  destruct (data !! "a") as [va|]; [|destruct (data !! "b") as [vb|];
    [destruct (operand_field vb)|]; (destruct (data !! "type") as [vt|];
    [destruct (type_field vt)|]); discriminate].
  destruct (operand_field va) eqn:Ea;
    (destruct (data !! "b") as [vb|]; [destruct (operand_field vb) eqn:Eb|]);
    (destruct (data !! "type") as [vt|]; [destruct (type_field vt) eqn:Et|]);
    try discriminate.
  cbn [and_field]. intros [= -> -> ->]. exists va, vb, vt. repeat split; assumption.
Qed.

Lemma base_validate_pass (data : gmap string pyval) (va vb vt : pyval)
    (fa fb : float) (t : CalculationType) :
  data !! "a" = Some va -> data !! "b" = Some vb -> data !! "type" = Some vt ->
  operand_field va = Pass fa -> operand_field vb = Pass fb ->
  type_field vt = Pass t ->
  CalculationBase_validate data =
  checked {| a := fa; b := fb; type := t |} {| a := fa; b := fb; type := t |}.
Proof.
  intros Ha Hb Ht Hfa Hfb Hft. unfold CalculationSchemas.CalculationBase_validate.
  rewrite (base_fields_pass _ _ _ _ _ _ _ Ha Hb Ht Hfa Hfb Hft).
  unfold and_then, build_base, validate_operands, checked. cbn [type b].
  destruct (is_division t && eq_zero fb); reflexivity.
Qed.

Lemma create_validate_pass (data : gmap string pyval) (fa fb : float)
    (t : CalculationType) (u : UUID) :
  base_fields str_as_float data = Valid (tt, fa, fb, t) ->
  required data "user_id" uuid_field = Pass u ->
  CalculationCreate_validate data =
  checked {| a := fa; b := fb; type := t |}
    {| create_base := {| a := fa; b := fb; type := t |}; create_user_id := u |}.
Proof.
  intros Hf Hu. unfold CalculationSchemas.CalculationCreate_validate.
  rewrite Hf, Hu. unfold and_field, and_then, build_base, validate_operands, checked.
  cbn [fst snd create_base type b].
  destruct (is_division t && eq_zero fb); reflexivity.
Qed.

Lemma read_validate_pass (data : gmap string pyval) (fa fb : float)
    (t : CalculationType) (i u : UUID) (r : float) (c m : datetime) :
  base_fields str_as_float data = Valid (tt, fa, fb, t) ->
  required data "id" uuid_field = Pass i ->
  required data "user_id" uuid_field = Pass u ->
  required data "result" float_validator = Pass r ->
  required data "created_at" datetime_field = Pass c ->
  required data "updated_at" datetime_field = Pass m ->
  CalculationRead_validate data =
  checked {| a := fa; b := fb; type := t |}
    {| read_base := {| a := fa; b := fb; type := t |}; read_id := i;
       read_user_id := u; read_result := r; read_created_at := c;
       read_updated_at := m |}.
Proof.
  intros Hf Hi Hu Hr Hc Hm.
  unfold CalculationSchemas.CalculationRead_validate, read_fields.
  rewrite Hf, Hi, Hu, Hr, Hc, Hm.
  unfold and_field, and_then, build_base, validate_operands, checked.
  cbn [read_base type b].
  destruct (is_division t && eq_zero fb); reflexivity.
Qed.

(** The operand that the model holds is zero exactly when the operand of
    the payload is. *)
Lemma operand_field_eq_zero (v : pyval) (f : float) :
  operand_field v = Pass f -> eq_zero f = number_eq_zero v.
Proof.
  destruct v as [|x|z|g| | | | |]; cbn -[float_of_int]; try discriminate.
  - intros [= <-]. destruct x; reflexivity.
  - destruct (float_of_int z) eqn:E; [|discriminate].
    intros [= <-]. apply FloatFacts.float_of_int_eq_zero. exact E.
  - intros [= <-]. reflexivity.
Qed.

Lemma type_field_division (s : string) :
  lower s = "division" -> type_field (PStr s) = Pass DIVISION.
Proof. intros H. rewrite type_field_text, H. reflexivity. Qed.

(** C1: on a payload of [CalculationBase] whose operands are numbers and
    whose type is division, validation fails with "Cannot divide by zero"
    exactly when [b == 0], that is when the operand [b] is one of the two
    zeros, which it is exactly when the [b] of the payload is zero, whatever
    [a] is, and succeeds when [b] is not zero; the same holds
    of the create and read variants when their own fields are valid.  The
    decision is taken by the validator, on the operand alone. *)
Theorem division_fails_iff_zero_divisor (data : gmap string pyval)
    (va vb : pyval) (s : string) (fa fb : float) :
  data !! "a" = Some va -> data !! "b" = Some vb ->
  data !! "type" = Some (PStr s) -> lower s = "division" ->
  operand_field va = Pass fa -> operand_field vb = Pass fb ->
  let base := {| a := fa; b := fb; type := DIVISION |} in
  (CalculationBase_validate data = divide_error <-> eq_zero fb = true)
  /\ (eq_zero fb = true <-> fb = S754_zero false \/ fb = S754_zero true)
  /\ eq_zero fb = number_eq_zero vb
  /\ (eq_zero fb = false -> CalculationBase_validate data = Valid base)
  /\ (validate_operands base =
      if eq_zero fb then ValueError divide_msg else Ok base)
  /\ (forall u,
        required data "user_id" uuid_field = Pass u ->
        CalculationCreate_validate data =
        if eq_zero fb then divide_error
        else Valid {| create_base := base; create_user_id := u |})
  /\ (forall i u r c m,
        required data "id" uuid_field = Pass i ->
        required data "user_id" uuid_field = Pass u ->
        required data "result" float_validator = Pass r ->
        required data "created_at" datetime_field = Pass c ->
        required data "updated_at" datetime_field = Pass m ->
        CalculationRead_validate data =
        if eq_zero fb then divide_error
        else Valid {| read_base := base; read_id := i; read_user_id := u;
                      read_result := r; read_created_at := c;
                      read_updated_at := m |}).
Proof.
  intros Ha Hb Ht Hs Hfa Hfb base.
  pose proof (type_field_division s Hs) as Hft.
  pose proof (base_fields_pass _ _ _ _ _ _ _ Ha Hb Ht Hfa Hfb Hft) as Hf.
  rewrite (base_validate_pass _ _ _ _ _ _ _ Ha Hb Ht Hfa Hfb Hft).
  unfold checked, validate_operands. cbn [type b is_division andb].
  split; [|split; [|split; [|split; [|split; [|split]]]]].
  - unfold divide_error. destruct (eq_zero fb); split; (reflexivity || discriminate).
  - apply eq_zero_iff.
  - apply operand_field_eq_zero. exact Hfb.
  - intros ->. reflexivity.
  - reflexivity.
  - intros u Hu. rewrite (create_validate_pass _ _ _ _ _ Hf Hu).
    unfold checked. cbn [type b is_division andb]. reflexivity.
  - intros i u r c m Hi Hu Hr Hc Hm.
    rewrite (read_validate_pass _ _ _ _ _ _ _ _ _ Hf Hi Hu Hr Hc Hm).
    unfold checked. cbn [type b is_division andb]. reflexivity.
Qed.

(** *** Operands *)

Lemma float_validator_no_crash (v : pyval) (x : exn) :
  float_validator v = Crash x -> False.
Proof.
  destruct v as [| | z | |s| | | |]; cbn -[float_of_int]; try discriminate.
  - destruct (float_of_int z); discriminate.
  - destruct (str_as_float s); discriminate.
Qed.

Lemma operand_field_no_crash (v : pyval) (x : exn) :
  operand_field v = Crash x -> False.
Proof.
  destruct v as [| | z | | | | | |]; cbn -[float_of_int]; try discriminate.
  destruct (float_of_int z); discriminate.
Qed.

Lemma uuid_field_no_crash (v : pyval) (x : exn) : uuid_field v = Crash x -> False.
Proof.
  unfold CalculationSchemas.uuid_field.
  destruct v; try discriminate; destruct (uuid_validator _); discriminate.
Qed.

Lemma datetime_field_no_crash (v : pyval) (x : exn) :
  datetime_field v = Crash x -> False.
Proof.
  unfold CalculationSchemas.datetime_field.
  destruct v; try discriminate; destruct (datetime_validator _); discriminate.
Qed.

Lemma required_no_crash {A} (data : gmap string pyval) (k : string)
    (validate : pyval -> fresult A) :
  (forall v x, validate v = Crash x -> False) ->
  forall x, required data k validate = Crash x -> False.
Proof.
  intros H x. unfold required. destruct (data !! k); [apply H|discriminate].
Qed.

(** A line that is reported stays reported when a further field is
    validated, unless that field lets an exception escape. *)
Lemma and_field_reports {A B} (acc : outcome A) (k : string) (r : fresult B)
    (l : error_line) :
  (forall x, r = Crash x -> False) ->
  reports acc l -> reports (and_field acc k r) l.
Proof.
  intros Hr. destruct acc as [x|lines|x]; simpl; [tauto| |tauto].
  destruct r as [y|e|x]; simpl; [tauto| |exfalso; eauto].
  intros H. apply in_or_app. left. exact H.
Qed.

Lemma and_field_reports_here {A B} (acc : outcome A) (k : string)
    (e : error_type) :
  (forall x, acc = Escapes x -> False) ->
  reports (and_field (B := B) acc k (Fail e)) {| loc := [k]; err := e |}.
Proof.
  intros Hacc. destruct acc as [x|lines|x]; simpl; [left; reflexivity| |eauto].
  apply in_or_app. right. left. reflexivity.
Qed.

Lemma and_then_reports {A B C} (acc : outcome A) (build : A -> B)
    (validate : B -> result B) (finish : B -> C) (l : error_line) :
  reports acc l -> reports (and_then acc build validate finish) l.
Proof. destruct acc; simpl; tauto. Qed.

(** An operand that its field rejects is reported by the model, with the
    name of the field, unless the validator of [type] lets an exception
    escape. *)
Lemma base_fields_report_a (data : gmap string pyval) (v : pyval)
    (e : error_type) :
  data !! "a" = Some v -> operand_field v = Fail e ->
  (forall x, required data "type" type_field = Crash x -> False) ->
  reports (base_fields str_as_float data) {| loc := ["a"]; err := e |}.
Proof.
  intros Ha He Ht. unfold base_fields.
  apply and_field_reports; [exact Ht|].
  apply and_field_reports;
    [apply required_no_crash; exact operand_field_no_crash|].
  assert (Hra : required data "a" operand_field = Fail e)
    by (unfold required; rewrite Ha; exact He).
  rewrite Hra. simpl. left. reflexivity.
Qed.

Lemma base_fields_report_b (data : gmap string pyval) (v : pyval)
    (e : error_type) :
  data !! "b" = Some v -> operand_field v = Fail e ->
  (forall x, required data "type" type_field = Crash x -> False) ->
  reports (base_fields str_as_float data) {| loc := ["b"]; err := e |}.
Proof.
  intros Hb He Ht. unfold base_fields.
  apply and_field_reports; [exact Ht|].
  assert (Hrb : required data "b" operand_field = Fail e)
    by (unfold required; rewrite Hb; exact He).
  rewrite Hrb. apply and_field_reports_here.
  intros x. destruct (required data "a" operand_field) eqn:E; simpl; try discriminate.
  intros [= ->]. eapply (required_no_crash data "a"); [exact operand_field_no_crash|exact E].
Qed.

(** What the fields of the base report, each variant reports. *)
Lemma variants_report (data : gmap string pyval) (l : error_line) :
  reports (base_fields str_as_float data) l ->
  reports (CalculationBase_validate data) l
  /\ reports (CalculationCreate_validate data) l
  /\ reports (CalculationRead_validate data) l.
Proof.
  intros H. split; [|split].
  - apply and_then_reports. exact H.
  - apply and_then_reports.
    apply and_field_reports; [apply required_no_crash; exact uuid_field_no_crash|].
    exact H.
  - apply and_then_reports. unfold read_fields.
    apply and_field_reports; [apply required_no_crash; exact datetime_field_no_crash|].
    apply and_field_reports; [apply required_no_crash; exact datetime_field_no_crash|].
    apply and_field_reports; [apply required_no_crash; exact float_validator_no_crash|].
    apply and_field_reports; [apply required_no_crash; exact uuid_field_no_crash|].
    apply and_field_reports; [apply required_no_crash; exact uuid_field_no_crash|].
    exact H.
Qed.

(** C4, as the code has it: in [CalculationBase] and its create and read
    variants the validator of [a] and [b] runs before pydantic's own
    conversion.  A null is rejected with "Both operands 'a' and 'b' must be
    provided"; a value that is neither an integer (a boolean is one) nor a
    float is rejected with "Input should be a valid float"; a float is
    accepted as it is and an integer is accepted and converted, when it fits
    in a float.  The model reports the rejected operand under its name.  The
    update variant does not have this validator. *)
Theorem operand_checked_before_conversion :
  operand_field PNone = Fail (value_error operand_missing_msg)
  /\ (forall v,
        v <> PNone -> is_float_or_int v = false ->
        operand_field v = Fail (value_error operand_float_msg))
  /\ (forall f, operand_field (PFloat f) = Pass f)
  /\ (forall z,
        operand_field (PInt z) =
        match float_of_int z with
        | Some f => Pass f
        | None => Fail float_type
        end)
  /\ (forall (data : gmap string pyval) k v e,
        k = "a" \/ k = "b" ->
        data !! k = Some v -> operand_field v = Fail e ->
        (forall x, required data "type" type_field = Crash x -> False) ->
        reports (CalculationBase_validate data) {| loc := [k]; err := e |}
        /\ reports (CalculationCreate_validate data) {| loc := [k]; err := e |}
        /\ reports (CalculationRead_validate data) {| loc := [k]; err := e |})
  /\ message (value_error operand_missing_msg) =
     "Value error, Both operands 'a' and 'b' must be provided"
  /\ message (value_error operand_float_msg) =
     "Value error, Input should be a valid float".
Proof.
  split; [reflexivity|]. split.
  { intros v Hv Hn. destruct v; try discriminate; try reflexivity. congruence. }
  split; [reflexivity|]. split; [reflexivity|]. split; [|split; reflexivity].
  intros data k v e [->| ->] Hk He Ht; apply variants_report.
  - eapply base_fields_report_a; eassumption.
  - eapply base_fields_report_b; eassumption.
Qed.

(** C10: a boolean operand passes the validator of [a] and [b], since a
    boolean is an [int], and pydantic converts it to 1.0 or 0.0; in each
    variant the operand [a] of a payload that holds [true] is 1.0, and the
    payload of the scenario, a = true, b = 2, type = "addition", is
    valid with a = 1.0. *)
Theorem boolean_operand_accepted :
  (forall x, validate_operand_exists_and_float (PBool x) = Ok (PBool x))
  /\ (forall x, operand_field (PBool x) = Pass (if x then one else zero))
  /\ float_of_int 1 = Some one
  /\ float_of_int 0 = Some zero
  /\ (forall (data : gmap string pyval) x vb vt fb t,
        data !! "a" = Some (PBool x) -> data !! "b" = Some vb ->
        data !! "type" = Some vt ->
        operand_field vb = Pass fb -> type_field vt = Pass t ->
        base_fields str_as_float data =
        Valid (tt, if x then one else zero, fb, t))
  /\ CalculationBase_validate payload_true_plus_two =
     Valid {| a := one; b := two; type := ADDITION |}.
Proof.
  split; [reflexivity|]. split; [reflexivity|].
  split; [reflexivity|]. split; [reflexivity|]. split.
  - intros data x vb vt fb t Ha Hb Ht Hfb Hft.
    eapply base_fields_pass; try eassumption. reflexivity.
  - rewrite (base_validate_pass payload_true_plus_two (PBool true) (PInt 2)
               (PStr "addition") one two ADDITION); reflexivity.
Qed.

(** *** What a valid outcome says of the payload *)

Lemma and_field_valid {A B} (acc : outcome A) (k : string) (r : fresult B)
    (x : A) (y : B) :
  and_field acc k r = Valid (x, y) -> acc = Valid x /\ r = Pass y.
Proof.
  destruct acc as [x'|lines|e]; destruct r as [y'|e'|e']; simpl; try discriminate.
  intros [= -> ->]. split; reflexivity.
Qed.

Lemma validate_operands_ok (base self : CalculationBase) :
  validate_operands base = Ok self ->
  self = base /\ is_division (type base) && eq_zero (b base) = false.
Proof.
  unfold validate_operands.
  destruct (is_division (type base) && eq_zero (b base)); [discriminate|].
  intros [= <-]. split; reflexivity.
Qed.

Lemma base_validate_valid (data : gmap string pyval) (c : CalculationBase) :
  CalculationBase_validate data = Valid c ->
  base_fields str_as_float data = Valid (tt, a c, b c, type c)
  /\ is_division (type c) && eq_zero (b c) = false.
Proof.
  unfold CalculationSchemas.CalculationBase_validate, and_then.
  destruct (base_fields str_as_float data) as [[[[[] fa] fb] t]|lines|x];
    try discriminate.
  destruct (validate_operands _) as [self|msg|x] eqn:E; try discriminate.
  apply validate_operands_ok in E as [-> E]. intros [= <-]. split; [reflexivity|exact E].
Qed.

Lemma create_validate_valid (data : gmap string pyval) (c : CalculationCreate) :
  CalculationCreate_validate data = Valid c ->
  base_fields str_as_float data =
    Valid (tt, a (create_base c), b (create_base c), type (create_base c))
  /\ required data "user_id" uuid_field = Pass (create_user_id c)
  /\ is_division (type (create_base c)) && eq_zero (b (create_base c)) = false.
Proof.
  unfold CalculationSchemas.CalculationCreate_validate, and_then.
  destruct (and_field _ _ _) as [[[[[[] fa] fb] t] u]|lines|x] eqn:F;
    try discriminate.
  apply and_field_valid in F as [F Hu]. cbn [fst snd create_base].
  destruct (validate_operands _) as [self|msg|x] eqn:E; try discriminate.
  apply validate_operands_ok in E as [_ E]. intros [= <-].
  cbn [create_base create_user_id build_base a b type] in *. auto.
Qed.

Lemma read_validate_valid (data : gmap string pyval) (c : CalculationRead) :
  CalculationRead_validate data = Valid c ->
  base_fields str_as_float data =
    Valid (tt, a (read_base c), b (read_base c), type (read_base c)).
Proof.
  unfold CalculationSchemas.CalculationRead_validate, and_then.
  destruct (read_fields _ _ _ _) as [[[[[[x i] u] r] cr] up]|lines|e] eqn:F;
    try discriminate.
  unfold read_fields in F.
  apply and_field_valid in F as [F _]. apply and_field_valid in F as [F _].
  apply and_field_valid in F as [F _]. apply and_field_valid in F as [F _].
  apply and_field_valid in F as [F _].
  destruct x as [[[[] fa] fb] t]. cbn [read_base].
  destruct (validate_operands _) as [self|msg|e] eqn:E; try discriminate.
  intros [= <-]. exact F.
Qed.

(** The type that a valid structure stores is the lower-cased text of the
    payload. *)
Lemma stored_type (data : gmap string pyval) (fa fb : float)
    (t : CalculationType) :
  base_fields str_as_float data = Valid (tt, fa, fb, t) ->
  exists s, data !! "type" = Some (PStr s) /\ value t = lower s.
Proof.
  intros H. apply base_fields_valid in H as (va & vb & vt & _ & _ & Ht & _ & _ & Hft).
  apply type_field_pass in Hft as (s & -> & Hs). eauto.
Qed.

(** *** The type *)

Lemma enum_validator_text (s : string) (t : CalculationType) :
  enum_validator (PStr s) = Pass t <-> s = value t.
Proof.
  unfold enum_validator. rewrite <- find_member.
  destruct (List.find _ members); split; congruence.
Qed.

(** C2, as the code has it: in [CalculationBase] and its create and read
    variants a type that is text is lower-cased before enum parsing; it is
    accepted exactly when the lower-cased text is the value of a member, and
    the member stored is the one of that lowercase value ("Addition" is
    stored as addition); any other text, and a value that is neither text
    nor a list nor a dict, is rejected with "Type must be one of: addition,
    division, multiplication, subtraction".  The update variant does not
    have this validator: its enum parsing accepts the exact values only. *)
Theorem type_lowercased_before_enum :
  (forall s t, type_field (PStr s) = Pass t <-> lower s = value t)
  /\ (forall s,
        type_field (PStr s) =
        match List.find (fun u => String.eqb (value u) (lower s)) members with
        | Some t => Pass t
        | None => Fail (value_error type_msg)
        end)
  /\ (forall v,
        match v with
        | PStr _ | PList _ | PDict _ => True
        | _ => type_field v = Fail (value_error type_msg)
        end)
  /\ type_msg =
     "Type must be one of: addition, division, multiplication, subtraction"
  /\ type_field (PStr "Addition") = Pass ADDITION
  /\ value ADDITION = "addition"
  /\ (forall (data : gmap string pyval) c,
        CalculationBase_validate data = Valid c ->
        exists s, data !! "type" = Some (PStr s) /\ value (type c) = lower s)
  /\ (forall (data : gmap string pyval) c,
        CalculationCreate_validate data = Valid c ->
        exists s, data !! "type" = Some (PStr s)
                  /\ value (type (create_base c)) = lower s)
  /\ (forall (data : gmap string pyval) c,
        CalculationRead_validate data = Valid c ->
        exists s, data !! "type" = Some (PStr s)
                  /\ value (type (read_base c)) = lower s)
  /\ (forall s t, enum_validator (PStr s) = Pass t <-> s = value t).
Proof.
  split.
  { intros s t. rewrite type_field_text, <- find_member.
    destruct (List.find _ members); split; congruence. }
  split; [exact type_field_text|].
  split; [intros v; destruct v; try exact I; reflexivity|].
  split; [reflexivity|]. split; [reflexivity|]. split; [reflexivity|].
  split.
  { intros data c H. apply base_validate_valid in H as [H _].
    eapply stored_type; exact H. }
  split.
  { intros data c H. apply create_validate_valid in H as [H _].
    eapply stored_type; exact H. }
  split.
  { intros data c H. apply read_validate_valid in H.
    eapply stored_type; exact H. }
  exact enum_validator_text.
Qed.

(** *** The update variant *)

Lemma optional_null {A} (data : gmap string pyval) (k : string)
    (validate : pyval -> fresult A) :
  data !! k = None \/ data !! k = Some PNone ->
  optional data k validate = Pass None.
Proof. unfold optional. intros [-> | ->]; reflexivity. Qed.

Lemma optional_no_crash {A} (data : gmap string pyval) (k : string)
    (validate : pyval -> fresult A) :
  (forall v x, validate v = Crash x -> False) ->
  forall x, optional data k validate = Crash x -> False.
Proof.
  intros H x. unfold optional. destruct (data !! k) as [v|]; [|discriminate].
  destruct (validate v) eqn:E; destruct v; simpl; try discriminate;
    intros [= ->]; eapply H; exact E.
Qed.

Lemma optional_pass {A} (data : gmap string pyval) (k : string)
    (validate : pyval -> fresult A) (v : pyval) (x : A) :
  data !! k = Some v -> validate v = Pass x -> v <> PNone ->
  optional data k validate = Pass (Some x).
Proof.
  unfold optional. intros -> H Hv. destruct v; try congruence; rewrite H; reflexivity.
Qed.

Lemma enum_validator_no_crash (v : pyval) (x : exn) :
  enum_validator v = Crash x -> False.
Proof.
  unfold enum_validator. destruct v; try discriminate.
  destruct (List.find _ members); discriminate.
Qed.

(** C3: a [CalculationUpdate] is rejected when either operand is absent or
    null, although both fields are declared optional: a valid update holds
    both operands.  A payload that holds two numbers and no type is valid;
    a = 42, b = 7 is. *)
Theorem update_requires_both_operands :
  (forall data : gmap string pyval,
     data !! "a" = None \/ data !! "a" = Some PNone \/
     data !! "b" = None \/ data !! "b" = Some PNone ->
     exists lines, CalculationUpdate_validate data = Invalid lines)
  /\ (forall (data : gmap string pyval) u,
        CalculationUpdate_validate data = Valid u ->
        exists fa fb, update_a u = Some fa /\ update_b u = Some fb)
  /\ (forall (data : gmap string pyval) va vb fa fb,
        data !! "a" = Some va -> data !! "b" = Some vb ->
        data !! "type" = None ->
        float_validator va = Pass fa -> float_validator vb = Pass fb ->
        CalculationUpdate_validate data =
        Valid {| update_a := Some fa; update_b := Some fb;
                 update_type := None |})
  /\ (exists f42 f7,
        float_of_int 42 = Some f42 /\ float_of_int 7 = Some f7 /\
        CalculationUpdate_validate payload_update_42_7 =
        Valid {| update_a := Some f42; update_b := Some f7;
                 update_type := None |}).
Proof.
  split; [|split; [|split]].
  - intros data H. unfold CalculationSchemas.CalculationUpdate_validate.
    pose proof (optional_no_crash data "a" _ float_validator_no_crash) as Ca.
    pose proof (optional_no_crash data "b" _ float_validator_no_crash) as Cb.
    pose proof (optional_no_crash data "type" _ enum_validator_no_crash) as Ct.
    assert (Hn : optional data "a" float_validator = Pass None
                 \/ optional data "b" float_validator = Pass None).
    { destruct H as [H|[H|[H|H]]];
        [left|left|right|right]; apply optional_null; auto. }
    destruct (optional data "a" float_validator) as [oa|ea|xa];
      [|clear Hn|exfalso; eauto];
      (destruct (optional data "b" float_validator) as [ob|eb|xb];
       [| |exfalso; eauto]);
      (destruct (optional data "type" enum_validator) as [ot|et|xt];
       [| |exfalso; eauto]);
      cbn [and_field and_then]; eauto.
    unfold update_validate_operands. cbn [update_a update_b].
    destruct Hn as [[= ->]|[= ->]]; [eauto|].
    destruct oa; cbn [is_none orb]; eauto.
  - intros data u. unfold CalculationSchemas.CalculationUpdate_validate.
    destruct (optional data "a" float_validator) as [oa|ea|xa];
      (destruct (optional data "b" float_validator) as [ob|eb|xb]);
      (destruct (optional data "type" enum_validator) as [ot|et|xt]);
      cbn [and_field and_then]; try discriminate.
    unfold update_validate_operands. cbn [update_a update_b update_type].
    destruct oa as [fa|], ob as [fb|]; cbn [is_none orb]; try discriminate.
    destruct (_ && _); [discriminate|]. intros [= <-]. eauto.
  - intros data va vb fa fb Ha Hb Ht Hfa Hfb.
    unfold CalculationSchemas.CalculationUpdate_validate.
    rewrite (optional_pass data "a" _ va fa Ha Hfa) by (intros ->; discriminate).
    rewrite (optional_pass data "b" _ vb fb Hb Hfb) by (intros ->; discriminate).
    rewrite (optional_null data "type") by auto. reflexivity.
  - eexists _, _. split; [reflexivity|]. split; reflexivity.
Qed.

(** *** From a create request to a read response *)

(** C8: a valid create payload gives a normalized structure which,
    extended with the fields the server assigns (id, result, created_at,
    updated_at, and the owner it already holds), is a valid read payload;
    the read structure holds the same a, b and type. *)
Theorem create_read_round_trip (data : gmap string pyval)
    (c : CalculationCreate) (i : UUID) (r : float) (created updated : datetime) :
  CalculationCreate_validate data = Valid c ->
  CalculationRead_validate (read_payload c i r created updated) =
  Valid {| read_base := create_base c; read_id := i;
           read_user_id := create_user_id c; read_result := r;
           read_created_at := created; read_updated_at := updated |}.
Proof.
  intros H. apply create_validate_valid in H as (_ & _ & Hc).
  destruct c as [[fa fb t] u]. cbn [create_base create_user_id a b type] in *.
  assert (Hf : base_fields str_as_float
                 (read_payload {| create_base := {| a := fa; b := fb; type := t |};
                                  create_user_id := u |} i r created updated)
               = Valid (tt, fa, fb, t)).
  { apply (base_fields_pass _ (PFloat fa) (PFloat fb) (PStr (value t)));
      try reflexivity. apply type_field_value. }
  rewrite (read_validate_pass _ fa fb t i u r created updated Hf);
    try reflexivity.
  unfold checked. cbn [type b]. rewrite Hc. reflexivity.
Qed.

End ModelProperties.

(** *** The scenarios, run *)

(** The scenario of the specification: a = 100, b = 0, type = "division". *)
Lemma division_fails_iff_zero_divisor_witness :
  payload_divide_by_zero !! "b" = Some (PInt 0)
  /\ operand_field no_number_text (PInt 0) = Pass zero
  /\ (CalculationBase_validate no_number_text payload_divide_by_zero
      = divide_error <-> eq_zero zero = true).
Proof.
  split; [reflexivity|]. split; [reflexivity|].
  epose proof (division_fails_iff_zero_divisor no_number_text no_uuid_text
                 no_datetime_text payload_divide_by_zero (PInt 100) (PInt 0)
                 "division" _ zero eq_refl eq_refl eq_refl eq_refl
                 ltac:(reflexivity) eq_refl) as H.
  exact (proj1 H).
Defined.

(** C2, as stated, fails for the update variant: the type "Addition" is
    not lower-cased there, and the payload a = 1, b = 2, type = "Addition"
    is rejected, with the message of the enum parser. *)
Lemma update_type_not_lowercased :
  lower "Addition" = value ADDITION
  /\ CalculationUpdate_validate no_number_text payload_update_capital
     = Invalid [{| loc := ["type"]; err := enum_error |}]
  /\ message enum_error =
     "Input should be 'addition', 'subtraction', 'multiplication' or 'division'".
Proof. vm_compute. repeat split. Qed.

(** C4, as stated, fails.  In the update variant a list given for [a] is
    rejected by pydantic's own conversion, with "Input should be a valid
    number", and a null passes the field and is rejected afterwards by the
    model validator, at the level of the model. *)
Lemma update_operand_not_validated :
  CalculationUpdate_validate no_number_text payload_update_list
  = Invalid [{| loc := ["a"]; err := float_type |}]
  /\ message float_type = "Input should be a valid number"
  /\ String.eqb (message float_type) (message (value_error operand_float_msg))
     = false
  /\ CalculationUpdate_validate no_number_text payload_update_null
     = Invalid [{| loc := []; err := value_error update_missing_msg |}].
Proof. vm_compute. repeat split. Qed.

(** A create payload (a = 2.0, b = 3, type = "Multiplication"), what it
    normalizes to, and the read payload made of it. *)
Lemma create_read_round_trip_witness :
  CalculationCreate_validate no_number_text no_uuid_text payload_create
  = Valid created_sample
  /\ CalculationRead_validate no_number_text no_uuid_text no_datetime_text
       (read_payload created_sample 9%N one 10%Z 11%Z)
     = Valid {| read_base := create_base created_sample; read_id := 9%N;
                read_user_id := create_user_id created_sample;
                read_result := one; read_created_at := 10%Z;
                read_updated_at := 11%Z |}.
Proof.
  split; [reflexivity|].
  apply (create_read_round_trip no_number_text no_uuid_text no_datetime_text
           payload_create).
  reflexivity.
Defined.

(** A payload whose [b] is null: the base reports it under "b". *)
Lemma operand_checked_before_conversion_witness :
  payload_b_null !! "b" = Some PNone
  /\ reports (CalculationBase_validate no_number_text payload_b_null)
       {| loc := ["b"]; err := value_error operand_missing_msg |}.
Proof.
  split; [reflexivity|].
  pose proof (operand_checked_before_conversion no_number_text no_uuid_text
                no_datetime_text) as (_ & _ & _ & _ & H & _).
  apply (H payload_b_null "b" PNone).
  - right. reflexivity.
  - reflexivity.
  - reflexivity.
  - intros x. vm_compute. discriminate.
Defined.

(** A payload whose type is "Multiplication": the structure stores
    multiplication. *)
Lemma type_lowercased_before_enum_witness :
  CalculationCreate_validate no_number_text no_uuid_text payload_create
  = Valid created_sample
  /\ (exists s, payload_create !! "type" = Some (PStr s)
                /\ value MULTIPLICATION = lower s).
Proof.
  split; [reflexivity|].
  pose proof (type_lowercased_before_enum no_number_text no_uuid_text
                no_datetime_text) as (_ & _ & _ & _ & _ & _ & _ & H & _).
  apply (H payload_create created_sample). reflexivity.
Defined.

(** An update whose [a] is null is rejected. *)
Lemma update_requires_both_operands_witness :
  payload_update_null !! "a" = Some PNone
  /\ (exists lines,
        CalculationUpdate_validate no_number_text payload_update_null
        = Invalid lines).
Proof.
  split; [reflexivity|].
  apply (proj1 (update_requires_both_operands no_number_text)).
  right. left. reflexivity.
Defined.

(** The scenario a = 1, b = 2, type = "modulus": rejected, with the allowed
    values in sorted order. *)
Example modulus_rejected :
  CalculationBase_validate no_number_text payload_modulus
  = Invalid [{| loc := ["type"]; err := value_error type_msg |}]
  /\ message (value_error type_msg) =
     "Value error, Type must be one of: addition, division, multiplication, subtraction".
Proof. vm_compute. split; reflexivity. Qed.

End CalculationProperties.

(** * Further properties of the schemas *)

(** ** Trimming and lower-casing *)

Module MoreStringFacts.
Import Py StringFacts.

Lemma lstrip_clean (s : string) : starts_clean (lstrip s) = true.
Proof.
  induction s as [|c s IH]; [reflexivity|]. simpl.
  destruct (isspace c) eqn:E; [exact IH|]. simpl. rewrite E. reflexivity.
Qed.

Lemma lstrip_id (s : string) : starts_clean s = true -> lstrip s = s.
Proof.
  destruct s as [|c s]; [reflexivity|]. simpl.
  destruct (isspace c); [discriminate|reflexivity].
Qed.

Lemma rstrip_clean (s : string) :
  starts_clean s = true -> starts_clean (rstrip s) = true.
Proof.
  destruct s as [|c s]; [reflexivity|]. simpl. intros H.
  destruct (rstrip s); [|exact H].
  destruct (isspace c) eqn:Ec; [reflexivity|]. simpl. rewrite Ec. reflexivity.
Qed.

Lemma rstrip_idempotent (s : string) : rstrip (rstrip s) = rstrip s.
Proof.
  induction s as [|c s IH]; [reflexivity|]. simpl.
  destruct (rstrip s) as [|c' r] eqn:E.
  - destruct (isspace c) eqn:Ec; [reflexivity|]. simpl. rewrite Ec. reflexivity.
  - change (rstrip (String c (String c' r))) with
      (match rstrip (String c' r) with
       | EmptyString => if isspace c then EmptyString else String c EmptyString
       | r0 => String c r0
       end).
    rewrite IH. reflexivity.
Qed.

Lemma strip_clean (s : string) : starts_clean (strip s) = true.
Proof. apply rstrip_clean, lstrip_clean. Qed.

(** Trimming twice is trimming once. *)
Lemma strip_idempotent (s : string) : strip (strip s) = strip s.
Proof.
  unfold strip at 1. rewrite (lstrip_id (strip s)) by apply strip_clean.
  apply rstrip_idempotent.
Qed.

Lemma lower_char_idempotent (c : ascii) :
  lower_char (lower_char c) = lower_char c.
Proof.
  destruct c as [[] [] [] [] [] [] [] []]; reflexivity.
Qed.

(** Lower-casing twice is lower-casing once. *)
Lemma lower_idempotent (s : string) : lower (lower s) = lower s.
Proof.
  induction s as [|c s IH]; [reflexivity|]. simpl.
  rewrite lower_char_idempotent, IH. reflexivity.
Qed.

(** A class without white space: a string of the class is its own
    trimmed form. *)
Lemma strip_all (cls : ascii -> bool) (s : string) :
  (forall c, cls c = true -> isspace c = false) ->
  all cls s = true -> strip s = s.
Proof.
  intros Hcls H. unfold strip.
  assert (Hl : lstrip s = s).
  { destruct s as [|c s]; [reflexivity|]. simpl in *.
    apply andb_true_iff in H as [Hc _]. rewrite (Hcls c Hc). reflexivity. }
  rewrite Hl. clear Hl. induction s as [|c s IH]; [reflexivity|].
  simpl in *. apply andb_true_iff in H as [Hc Hs]. rewrite (IH Hs).
  destruct s; [rewrite (Hcls c Hc)|]; reflexivity.
Qed.

Lemma rstrip_id (s : string) : last_is isspace s = false -> rstrip s = s.
Proof.
  induction s as [|c s IH]; [reflexivity|]. simpl. intros H.
  destruct s as [|c' s'].
  - simpl. rewrite H. reflexivity.
  - rewrite (IH H). reflexivity.
Qed.

(** A string is its own trimmed form exactly when it neither starts nor
    ends with white space. *)
Lemma strip_fixed (s : string) :
  strip s = s <-> starts_clean s = true /\ last_is isspace s = false.
Proof.
  split.
  - intros <-. split; [apply strip_clean|apply strip_last].
  - intros [Hs Hl]. unfold strip. rewrite (lstrip_id s Hs). apply rstrip_id, Hl.
Qed.

End MoreStringFacts.

(** ** More on the user schemas *)

Module UserExtras.
Import Py Pydantic UserSchemas StringFacts MoreStringFacts UserProperties.

(** What an accepted name is. *)
Lemma name_field_pass_inv (v w : string) :
  name_field v = Pass w ->
  (1 <= String.length v <= 50)%nat /\ w = strip v /\ is_empty w = false /\
  all name_class w = true.
Proof.
  unfold name_field, str_constrained.
  destruct (Nat.ltb_spec (String.length v) 1); [discriminate|].
  destruct (Nat.ltb_spec 50 (String.length v)); [discriminate|].
  simpl. rewrite validate_name_eq.
  destruct (is_empty (strip v)) eqn:E; [discriminate|].
  destruct (all name_class (strip v)) eqn:Ea; [|discriminate].
  intros [= <-]. repeat split; (lia || assumption).
Qed.

Lemma validate_name_trimmed (v : string) :
  is_empty (strip v) = false -> all name_class (strip v) = true ->
  validate_name (strip v) = Ok (strip v).
Proof.
  intros He Ha. rewrite validate_name_eq, strip_idempotent, He, Ha. reflexivity.
Qed.

Lemma validate_username_trimmed (v : string) :
  is_empty (strip v) = false -> all username_class (strip v) = true ->
  re_match_first alnum_class (strip v) = true ->
  validate_username (strip v) = Ok (strip v).
Proof.
  intros He Ha Hf.
  rewrite validate_username_eq, strip_idempotent, He, Ha, Hf. reflexivity.
Qed.

(** X1: the name validator normalizes: a name it accepts is accepted again
    and returned unchanged, and it neither starts nor ends with white
    space. *)
Theorem name_field_idempotent (v w : string) :
  name_field v = Pass w ->
  name_field w = Pass w
  /\ starts_clean w = true /\ last_is isspace w = false
  /\ (1 <= String.length w <= String.length v)%nat.
Proof.
  intros H. apply name_field_pass_inv in H as (Hlen & -> & He & Ha).
  pose proof (strip_length v) as Hl.
  assert (Hn : (1 <= String.length (strip v))%nat).
  { revert He. destruct (strip v); [discriminate|simpl; lia]. }
  split; [|split; [apply strip_clean|split; [apply strip_last|lia]]].
  unfold name_field, str_constrained.
  destruct (Nat.ltb_spec (String.length (strip v)) 1); [lia|].
  destruct (Nat.ltb_spec 50 (String.length (strip v))); [lia|].
  simpl. rewrite (validate_name_trimmed v He Ha). reflexivity.
Qed.

Lemma name_field_idempotent_witness :
  name_field "  Anne-Marie O'Neil " = Pass "Anne-Marie O'Neil"
  /\ name_field "Anne-Marie O'Neil" = Pass "Anne-Marie O'Neil".
Proof.
  split; [reflexivity|].
  apply (name_field_idempotent "  Anne-Marie O'Neil " "Anne-Marie O'Neil").
  reflexivity.
Defined.

Lemma username_class_not_space (c : ascii) :
  username_class c = true -> isspace c = false.
Proof.
  destruct c as [[] [] [] [] [] [] [] []]; vm_compute; congruence.
Qed.

Lemma username_field_pass_inv (v w : string) :
  username_field v = Pass w ->
  (3 <= String.length v <= 50)%nat /\ w = strip v /\ is_empty w = false /\
  all username_class w = true /\ re_match_first alnum_class w = true.
Proof.
  rewrite username_field_eq.
  destruct (Nat.ltb_spec (String.length v) 3); [discriminate|].
  destruct (Nat.ltb_spec 50 (String.length v)); [discriminate|].
  destruct (is_empty (strip v)) eqn:E; [discriminate|].
  destruct (all username_class (strip v)) eqn:Ea; [|discriminate].
  destruct (re_match_first alnum_class (strip v)) eqn:Ef; [|discriminate].
  simpl. intros [= <-]. repeat split; (lia || assumption).
Qed.

(** X2: an accepted username holds no white space, and the validator
    returns it unchanged when it sees it again; the field accepts it again
    exactly when it is at least 3 characters long, since the length is
    checked on what comes in. *)
Theorem username_field_idempotent (v w : string) :
  username_field v = Pass w ->
  any isspace w = false
  /\ validate_username w = Ok w
  /\ username_field w =
     if (String.length w <? 3)%nat then Fail (string_too_short 3) else Pass w.
Proof.
  intros H. apply username_field_pass_inv in H as (Hlen & Hw & He & Ha & Hf).
  assert (Hs : strip w = w)
    by (apply (strip_all username_class); [exact username_class_not_space|exact Ha]).
  assert (Hlw : (String.length w <= 50)%nat).
  { rewrite Hw. pose proof (strip_length v). lia. }
  split; [|split].
  - clear - Ha. induction w as [|c w IH]; [reflexivity|]. simpl in *.
    apply andb_true_iff in Ha as [Hc Hr].
    rewrite (username_class_not_space c Hc), (IH Hr). reflexivity.
  - rewrite validate_username_eq, Hs, He, Ha, Hf. reflexivity.
  - rewrite username_field_eq, Hs, He, Ha, Hf. simpl.
    destruct (String.length w <? 3)%nat; [reflexivity|].
    destruct (Nat.ltb_spec 50 (String.length w)); [lia|reflexivity].
Qed.

Lemma username_field_idempotent_witness :
  username_field " john_doe-7 " = Pass "john_doe-7"
  /\ validate_username "john_doe-7" = Ok "john_doe-7".
Proof.
  split; [reflexivity|].
  apply (username_field_idempotent " john_doe-7 " "john_doe-7"). reflexivity.
Defined.

(** The password validator accepts exactly when no rule is violated, and
    returns the payload as it is. *)
Lemma validate_password_ok (values values' : gmap string (option string)) :
  validate_password values = Ok values' <->
  values' = values /\ first_violated (get values "password") = None.
Proof.
  unfold validate_password, first_violated, rule_order. simpl.
  destruct (falsy (get values "password")); [split; [discriminate|intros [_ [=]]]|].
  destruct (String.length (default "" (get values "password")) <? 6)%nat;
    [split; [discriminate|intros [_ [=]]]|].
  destruct (any isupper (default "" (get values "password")));
    [|split; [discriminate|intros [_ [=]]]].
  destruct (any islower (default "" (get values "password")));
    [|split; [discriminate|intros [_ [=]]]].
  destruct (any isdigit (default "" (get values "password")));
    [|split; [discriminate|intros [_ [=]]]].
  simpl. split; [intros [= <-]; split; reflexivity|intros [-> _]; reflexivity].
Qed.

Lemma first_violated_length (p : string) :
  first_violated (Some p) = None -> (6 <= String.length p)%nat.
Proof.
  unfold first_violated, rule_order. simpl.
  destruct (is_empty p); [discriminate|].
  destruct (Nat.ltb_spec (String.length p) 6); [discriminate|]. intros _. lia.
Qed.

(** X3: [UserLogin] accepts a payload exactly when it holds a password
    that violates no rule and is at most 128 characters long, and a username
    of 3 to 50 characters; the structure holds both as they were given, the
    username is neither trimmed nor checked for its characters. *)
Theorem login_accepts_iff (values : gmap string (option string))
    (u : UserLogin) :
  UserLogin_validate values = Valid u <->
  exists p n,
    values !! "password" = Some (Some p) /\ values !! "username" = Some (Some n) /\
    first_violated (Some p) = None /\ (String.length p <= 128)%nat /\
    (3 <= String.length n <= 50)%nat /\
    u = {| login_password := p; login_username := n |}.
Proof.
  unfold UserLogin_validate. split.
  - destruct (validate_password values) as [values'|msg|x] eqn:E; try discriminate.
    apply validate_password_ok in E as [-> E].
    unfold str_field, get in *.
    destruct (values !! "password") as [[p|]|]; try discriminate E.
    destruct (values !! "username") as [[n|]|];
      destruct (str_constrained 6 128 p) as [p'|e|x] eqn:Ep;
      try discriminate;
      try (destruct (str_constrained 3 50 n) as [n'|e'|x'] eqn:En);
      try discriminate.
    apply str_constrained_pass in Ep as [Hp ->].
    apply str_constrained_pass in En as [Hn ->].
    cbn. intros [= <-]. exists p, n. repeat split; (lia || assumption).
  - intros (p & n & Hp & Hn & Hv & Hlp & Hln & ->).
    assert (E : validate_password values = Ok values).
    { apply validate_password_ok. split; [reflexivity|].
      unfold get. rewrite Hp. exact Hv. }
    rewrite E. unfold str_field. rewrite Hp, Hn.
    pose proof (first_violated_length p Hv).
    rewrite (proj2 (str_constrained_pass 6 128 p p)) by (split; [lia|reflexivity]).
    rewrite (proj2 (str_constrained_pass 3 50 n n)) by (split; [lia|reflexivity]).
    reflexivity.
Qed.

(** X15: the names that the field returns are exactly the texts of 1 to
    50 characters, made of letters, white space, hyphens and apostrophes,
    that neither start nor end with white space: white space inside a name,
    a tab or a line break included, is kept. *)
Theorem name_field_fixed_points (w : string) :
  name_field w = Pass w <->
  (1 <= String.length w <= 50)%nat /\ all name_class w = true /\
  starts_clean w = true /\ last_is isspace w = false.
Proof.
  split.
  - intros H. pose proof (name_field_pass_inv _ _ H) as (Hlen & Hw & _ & Ha).
    symmetry in Hw. apply strip_fixed in Hw as [Hs Hl]. auto.
  - intros (Hlen & Ha & Hs & Hl).
    assert (Hw : strip w = w) by (apply strip_fixed; auto).
    unfold name_field, str_constrained.
    destruct (Nat.ltb_spec (String.length w) 1); [lia|].
    destruct (Nat.ltb_spec 50 (String.length w)); [lia|].
    simpl. rewrite validate_name_eq, Hw, Ha.
    destruct w; [simpl in Hlen; lia|reflexivity].
Qed.

Section ReadExtras.

Variable email_validator : pyval -> string + string.
Variable uuid_validator : pyval -> UUID + string.
Variable bool_validator : pyval -> bool + string.
Variable datetime_validator : pyval -> datetime + string.

Lemma required_text_pass (attrs : gmap string pyval) (k : string)
    (field : string -> fresult string) (w : string) :
  required attrs k (fun v => fbind (str_validator v) field) = Pass w ->
  exists raw, attrs !! k = Some (PStr raw) /\ field raw = Pass w.
Proof.
  unfold required. destruct (attrs !! k) as [v|]; [|discriminate].
  destruct v; try discriminate. simpl. eauto.
Qed.

(** X4: reading a user validates the names again: the first name, last
    name and username of a [UserRead] are the trimmed texts of the
    attributes, and each of them passes its validator unchanged. *)
Theorem user_read_trims_names (attrs : gmap string pyval) (r : UserRead) :
  UserRead_validate email_validator uuid_validator bool_validator
    datetime_validator attrs = Valid r ->
  exists f l n,
    attrs !! "first_name" = Some (PStr f) /\ attrs !! "last_name" = Some (PStr l) /\
    attrs !! "username" = Some (PStr n) /\
    first_name r = strip f /\ last_name r = strip l /\ username r = strip n /\
    validate_name (first_name r) = Ok (first_name r) /\
    validate_name (last_name r) = Ok (last_name r) /\
    validate_username (username r) = Ok (username r).
Proof.
  unfold UserRead_validate, and_build, and_then.
  destruct (and_field _ "updated_at" _)
    as [[[[[[[[[[[[] fn] ln] em] un] i] ac] ve] ll] cr] up]|lines|x] eqn:F;
    try discriminate.
  intros [= <-]. cbn [first_name last_name username].
  repeat (apply CalculationProperties.and_field_valid in F as [F ?]).
  match goal with H : required attrs "first_name" _ = _ |- _ =>
    apply required_text_pass in H as (f & Hf & Hfn) end.
  match goal with H : required attrs "last_name" _ = _ |- _ =>
    apply required_text_pass in H as (l & Hl & Hln) end.
  match goal with H : required attrs "username" _ = _ |- _ =>
    apply required_text_pass in H as (n & Hn & Hun) end.
  exists f, l, n.
  apply name_field_pass_inv in Hfn as (_ & -> & He1 & Ha1).
  apply name_field_pass_inv in Hln as (_ & -> & He2 & Ha2).
  apply username_field_pass_inv in Hun as (_ & -> & He3 & Ha3 & Hf3).
  repeat split; try assumption.
  - apply validate_name_trimmed; assumption.
  - apply validate_name_trimmed; assumption.
  - apply validate_username_trimmed; assumption.
Qed.

End ReadExtras.

Lemma user_read_trims_names_witness :
  UserRead_validate email_of_text uuid_of_object bool_of_object
    datetime_of_object stored_user = Valid read_user
  /\ (exists f l n,
        stored_user !! "first_name" = Some (PStr f) /\
        stored_user !! "last_name" = Some (PStr l) /\
        stored_user !! "username" = Some (PStr n) /\
        "Ada" = strip f /\ "Lovelace" = strip l /\ "ada_l" = strip n /\
        validate_name "Ada" = Ok "Ada" /\
        validate_name "Lovelace" = Ok "Lovelace" /\
        validate_username "ada_l" = Ok "ada_l").
Proof.
  split; [reflexivity|].
  apply (user_read_trims_names email_of_text uuid_of_object bool_of_object
           datetime_of_object stored_user read_user).
  reflexivity.
Defined.

End UserExtras.

(** ** More on the calculation schemas *)

Module CalculationExtras.
Import Py Pydantic CalculationSchemas MoreStringFacts CalculationProperties.
#[local] Open Scope list_scope.

(** *** How errors are collected *)

(** One more field: its line comes after the lines collected so far. *)
Lemma and_field_summary {A B} (acc : outcome A) (k : string) (r : fresult B) :
  is_escape acc = false -> is_crash r = false ->
  pending (and_field acc k r) = pending acc ++ lines_of k r
  /\ is_valid (and_field acc k r) = is_valid acc && is_pass r
  /\ is_escape (and_field acc k r) = false.
Proof.
  destruct acc as [x|lines|x]; destruct r as [y|e|y]; simpl; try discriminate;
    intros _ _; repeat split; try reflexivity.
  symmetry. apply app_nil_r.
Qed.

(** An outcome that is neither valid nor an exception is the
    [ValidationError] of its lines. *)
Lemma outcome_invalid {A} (o : outcome A) :
  is_escape o = false -> is_valid o = false -> o = Invalid (pending o).
Proof. destruct o; simpl; try discriminate; reflexivity. Qed.

Lemma and_field_crash {A B} (acc : outcome A) (k : string) (x : exn) :
  is_escape acc = false -> and_field (B := B) acc k (Crash x) = Escapes x.
Proof. destruct acc; simpl; try discriminate; reflexivity. Qed.

Lemma and_field_escape {A B} (acc : outcome A) (k : string) (r : fresult B)
    (x : exn) :
  and_field acc k r = Escapes x ->
  acc = Escapes x \/ (is_escape acc = false /\ r = Crash x).
Proof.
  destruct acc as [y|lines|y]; destruct r as [z|e|z]; simpl; try discriminate;
    intros [= ->]; auto.
Qed.

(** The validator of [type] lets an exception escape exactly on a value
    that cannot be hashed. *)
Lemma type_field_crash (v : pyval) (x : exn) :
  type_field v = Crash x <-> unhashable v = Some x.
Proof.
  destruct v as [| | | |s| | |l|d]; try (split; discriminate).
  - rewrite type_field_text.
    destruct (List.find _ members); split; discriminate.
  - split; intros [= <-]; reflexivity.
  - split; intros [= <-]; reflexivity.
Qed.

Lemma is_crash_false {A} (r : fresult A) :
  (forall x, r = Crash x -> False) -> is_crash r = false.
Proof. destruct r; [reflexivity|reflexivity|]. intros H. exfalso. eauto. Qed.

Section Collect.

Variable str_as_float : string -> option float.
Variable uuid_validator : pyval -> UUID + string.
Variable datetime_validator : pyval -> datetime + string.

#[local] Abbreviation operand_field := (operand_field str_as_float).
#[local] Abbreviation float_validator := (float_validator str_as_float).
#[local] Abbreviation uuid_field := (uuid_field uuid_validator).
#[local] Abbreviation datetime_field := (datetime_field datetime_validator).
#[local] Abbreviation base_fields := (base_fields str_as_float).
#[local] Abbreviation CalculationBase_validate :=
  (CalculationBase_validate str_as_float).
#[local] Abbreviation CalculationCreate_validate :=
  (CalculationCreate_validate str_as_float uuid_validator).
#[local] Abbreviation CalculationRead_validate :=
  (CalculationRead_validate str_as_float uuid_validator datetime_validator).
#[local] Abbreviation CalculationUpdate_validate :=
  (CalculationUpdate_validate str_as_float).

Lemma operand_required_no_crash (data : gmap string pyval) (k : string) :
  is_crash (required data k operand_field) = false.
Proof.
  apply is_crash_false, required_no_crash. apply operand_field_no_crash.
Qed.

Lemma uuid_required_no_crash (data : gmap string pyval) (k : string) :
  is_crash (required data k uuid_field) = false.
Proof.
  apply is_crash_false, required_no_crash. apply uuid_field_no_crash.
Qed.

Lemma datetime_required_no_crash (data : gmap string pyval) (k : string) :
  is_crash (required data k datetime_field) = false.
Proof.
  apply is_crash_false, required_no_crash. apply datetime_field_no_crash.
Qed.

Lemma float_required_no_crash (data : gmap string pyval) (k : string) :
  is_crash (required data k float_validator) = false.
Proof.
  apply is_crash_false, required_no_crash. apply float_validator_no_crash.
Qed.

(** The fields of the base, summed up. *)
Lemma base_fields_summary (data : gmap string pyval) :
  is_crash (required data "type" type_field) = false ->
  pending (base_fields data) =
    lines_of "a" (required data "a" operand_field)
    ++ lines_of "b" (required data "b" operand_field)
    ++ lines_of "type" (required data "type" type_field)
  /\ is_valid (base_fields data) =
     is_pass (required data "a" operand_field)
     && is_pass (required data "b" operand_field)
     && is_pass (required data "type" type_field)
  /\ is_escape (base_fields data) = false.
Proof.
  intros Ht. unfold CalculationSchemas.base_fields.
  destruct (and_field_summary (Valid tt) "a" (required data "a" operand_field)
              eq_refl (operand_required_no_crash data "a")) as (P1 & V1 & E1).
  destruct (and_field_summary _ "b" (required data "b" operand_field)
              E1 (operand_required_no_crash data "b")) as (P2 & V2 & E2).
  destruct (and_field_summary _ "type" (required data "type" type_field)
              E2 Ht) as (P3 & V3 & E3).
  rewrite P3, P2, P1, V3, V2, V1. simpl. rewrite <- app_assoc. auto.
Qed.

(** The fields of the base let an exception escape exactly when the
    validator of [type] does. *)
Lemma base_fields_escapes (data : gmap string pyval) (x : exn) :
  base_fields data = Escapes x <-> required data "type" type_field = Crash x.
Proof.
  unfold CalculationSchemas.base_fields. split.
  - intros H. apply and_field_escape in H as [H|[_ H]]; [|exact H].
    apply and_field_escape in H as [H|[_ H]].
    + apply and_field_escape in H as [H|[_ H]]; [discriminate|].
      pose proof (operand_required_no_crash data "a") as C. rewrite H in C. discriminate.
    + pose proof (operand_required_no_crash data "b") as C. rewrite H in C. discriminate.
  - intros ->. apply and_field_crash.
    destruct (and_field_summary (Valid tt) "a" (required data "a" operand_field)
                eq_refl (operand_required_no_crash data "a")) as (_ & _ & E1).
    apply (and_field_summary _ "b" (required data "b" operand_field)
             E1 (operand_required_no_crash data "b")).
Qed.

(** X5: when a field of the base fails, and the validator of [type] lets
    no exception escape, the model reports exactly the lines of the fields
    that failed, in the order a, b, type and then the fields of the variant;
    the model validator adds nothing. *)
Theorem failed_fields_all_reported (data : gmap string pyval) :
  is_crash (required data "type" type_field) = false ->
  is_pass (required data "a" operand_field)
  && is_pass (required data "b" operand_field)
  && is_pass (required data "type" type_field) = false ->
  let base_lines :=
    lines_of "a" (required data "a" operand_field)
    ++ lines_of "b" (required data "b" operand_field)
    ++ lines_of "type" (required data "type" type_field) in
  CalculationBase_validate data = Invalid base_lines
  /\ CalculationCreate_validate data =
     Invalid (base_lines ++ lines_of "user_id" (required data "user_id" uuid_field))
  /\ CalculationRead_validate data =
     Invalid (base_lines
              ++ lines_of "id" (required data "id" uuid_field)
              ++ lines_of "user_id" (required data "user_id" uuid_field)
              ++ lines_of "result" (required data "result" float_validator)
              ++ lines_of "created_at" (required data "created_at" datetime_field)
              ++ lines_of "updated_at" (required data "updated_at" datetime_field)).
Proof.
  intros Ht Hp base_lines.
  destruct (base_fields_summary data Ht) as (P & V & E).
  rewrite Hp in V. fold base_lines in P.
  assert (Hb : base_fields data = Invalid base_lines)
    by (rewrite <- P; apply outcome_invalid; assumption).
  split; [|split].
  - unfold CalculationSchemas.CalculationBase_validate. rewrite Hb. reflexivity.
  - unfold CalculationSchemas.CalculationCreate_validate.
    destruct (and_field_summary (base_fields data) "user_id"
                (required data "user_id" uuid_field) E
                (uuid_required_no_crash data "user_id")) as (P1 & V1 & E1).
    rewrite V in V1. simpl in V1.
    rewrite (outcome_invalid _ E1 V1), P1, P. reflexivity.
  - unfold CalculationSchemas.CalculationRead_validate, read_fields.
    destruct (and_field_summary (base_fields data) "id"
                (required data "id" uuid_field) E
                (uuid_required_no_crash data "id")) as (P1 & V1 & E1).
    destruct (and_field_summary _ "user_id"
                (required data "user_id" uuid_field) E1
                (uuid_required_no_crash data "user_id")) as (P2 & V2 & E2).
    destruct (and_field_summary _ "result"
                (required data "result" float_validator) E2
                (float_required_no_crash data "result")) as (P3 & V3 & E3).
    destruct (and_field_summary _ "created_at"
                (required data "created_at" datetime_field) E3
                (datetime_required_no_crash data "created_at")) as (P4 & V4 & E4).
    destruct (and_field_summary _ "updated_at"
                (required data "updated_at" datetime_field) E4
                (datetime_required_no_crash data "updated_at")) as (P5 & V5 & E5).
    rewrite V4, V3, V2, V1, V in V5. simpl in V5.
    rewrite (outcome_invalid _ E5 V5), P5, P4, P3, P2, P1, P.
    rewrite <- !app_assoc. reflexivity.
Qed.

(** X6: an exception escapes from [CalculationBase], [CalculationCreate]
    and [CalculationRead] exactly when the type of the payload is a list or
    a dict, whatever the other fields hold, and it is the [TypeError] of the
    membership test; no payload makes one escape from
    [CalculationUpdate]. *)
Theorem exception_escapes_iff_unhashable_type :
  (forall (data : gmap string pyval) x,
     CalculationBase_validate data = Escapes x <->
     exists v, data !! "type" = Some v /\ unhashable v = Some x)
  /\ (forall (data : gmap string pyval) x,
        CalculationCreate_validate data = Escapes x <->
        exists v, data !! "type" = Some v /\ unhashable v = Some x)
  /\ (forall (data : gmap string pyval) x,
        CalculationRead_validate data = Escapes x <->
        exists v, data !! "type" = Some v /\ unhashable v = Some x)
  /\ (forall data : gmap string pyval,
        is_escape (CalculationUpdate_validate data) = false).
Proof.
  assert (Hty : forall (data : gmap string pyval) x,
            required data "type" type_field = Crash x <->
            exists v, data !! "type" = Some v /\ unhashable v = Some x).
  { intros data x. unfold required. destruct (data !! "type") as [v|].
    - rewrite type_field_crash. split; [eauto|]. intros (v' & [= <-] & H). exact H.
    - split; [discriminate|]. intros (v' & [=] & _). }
  assert (Hthen : forall A B C (acc : outcome A) (build : A -> B) validate
                    (finish : B -> C) x,
            (forall s y, validate s = Raise y -> False) ->
            (and_then acc build validate finish = Escapes x <-> acc = Escapes x)).
  { intros A B C acc build validate finish x Hv. unfold and_then.
    destruct acc as [y|lines|y]; [|split; discriminate|split; intros [= ->]; reflexivity].
    destruct (validate (build y)) eqn:E; split; try discriminate.
    intros [= ->]. exfalso. eauto. }
  assert (Hop : forall s y, validate_operands s = Raise y -> False).
  { intros s y. unfold validate_operands. destruct (_ && _); discriminate. }
  split; [|split; [|split]].
  - intros data x. unfold CalculationSchemas.CalculationBase_validate.
    rewrite Hthen by exact Hop. rewrite base_fields_escapes. apply Hty.
  - intros data x. unfold CalculationSchemas.CalculationCreate_validate.
    rewrite Hthen
      by (intros s y; destruct (validate_operands (create_base s)) eqn:E;
          try discriminate; intros [= ->]; eapply Hop; exact E).
    rewrite <- Hty, <- base_fields_escapes. split.
    + intros H. apply and_field_escape in H as [H|[_ H]]; [exact H|].
      pose proof (uuid_required_no_crash data "user_id") as C.
      rewrite H in C. discriminate.
    + intros ->. reflexivity.
  - intros data x. unfold CalculationSchemas.CalculationRead_validate.
    rewrite Hthen
      by (intros s y; destruct (validate_operands (read_base s)) eqn:E;
          try discriminate; intros [= ->]; eapply Hop; exact E).
    rewrite <- Hty, <- base_fields_escapes. unfold read_fields. split.
    + intros H.
      apply and_field_escape in H as [H|[_ H]];
        [|pose proof (datetime_required_no_crash data "updated_at") as C;
          rewrite H in C; discriminate].
      apply and_field_escape in H as [H|[_ H]];
        [|pose proof (datetime_required_no_crash data "created_at") as C;
          rewrite H in C; discriminate].
      apply and_field_escape in H as [H|[_ H]];
        [|pose proof (float_required_no_crash data "result") as C;
          rewrite H in C; discriminate].
      apply and_field_escape in H as [H|[_ H]];
        [|pose proof (uuid_required_no_crash data "user_id") as C;
          rewrite H in C; discriminate].
      apply and_field_escape in H as [H|[_ H]];
        [exact H|pose proof (uuid_required_no_crash data "id") as C;
          rewrite H in C; discriminate].
    + intros ->. reflexivity.
  - intros data. unfold CalculationSchemas.CalculationUpdate_validate.
    pose proof (optional_no_crash data "a" _
                  (float_validator_no_crash str_as_float)) as Ca.
    pose proof (optional_no_crash data "b" _
                  (float_validator_no_crash str_as_float)) as Cb.
    pose proof (optional_no_crash data "type" _ enum_validator_no_crash) as Ct.
    destruct (optional data "a" float_validator) as [oa|ea|xa];
      [| |exfalso; eauto];
      (destruct (optional data "b" float_validator) as [ob|eb|xb];
       [| |exfalso; eauto]);
      (destruct (optional data "type" enum_validator) as [ot|et|xt];
       [| |exfalso; eauto]);
      cbn [and_field and_then]; try reflexivity.
    destruct (update_validate_operands _) eqn:E; try reflexivity.
    exfalso. revert E. unfold update_validate_operands.
    destruct (_ || _); [discriminate|]. destruct (_ && _); discriminate.
Qed.

(** *** Absent keys *)

Lemma reports_pending {A} (o : outcome A) (l : error_line) :
  In l (pending o) -> reports o l.
Proof. destruct o; simpl; tauto. Qed.

Lemma required_absent {A} (data : gmap string pyval) (k : string)
    (validate : pyval -> fresult A) :
  data !! k = None -> lines_of k (required data k validate)
                      = [{| loc := [k]; err := missing |}].
Proof. unfold required. intros ->. reflexivity. Qed.

(** X7: a key that the payload does not hold is reported as "Field
    required" under its name, not with the message of the validator of the
    field: the keys a, b and type in all three variants, user_id in
    [CalculationCreate], and id, user_id, result, created_at and updated_at
    in [CalculationRead]. *)
Theorem absent_key_field_required (data : gmap string pyval) :
  is_crash (required data "type" type_field) = false ->
  (forall k,
     In k ["a"; "b"; "type"] -> data !! k = None ->
     reports (CalculationBase_validate data) {| loc := [k]; err := missing |}
     /\ reports (CalculationCreate_validate data) {| loc := [k]; err := missing |}
     /\ reports (CalculationRead_validate data) {| loc := [k]; err := missing |})
  /\ (data !! "user_id" = None ->
      reports (CalculationCreate_validate data)
        {| loc := ["user_id"]; err := missing |})
  /\ (forall k,
        In k ["id"; "user_id"; "result"; "created_at"; "updated_at"] ->
        data !! k = None ->
        reports (CalculationRead_validate data) {| loc := [k]; err := missing |}).
Proof.
  intros Ht. destruct (base_fields_summary data Ht) as (P & V & E).
  split; [|split].
  - intros k Hk Hn. apply variants_report. apply reports_pending. rewrite P.
    rewrite !in_app_iff.
    destruct Hk as [<-|[<-|[<-|[]]]]; rewrite (required_absent _ _ _ Hn);
      simpl; auto.
  - intros Hn. unfold CalculationSchemas.CalculationCreate_validate.
    apply and_then_reports, reports_pending.
    destruct (and_field_summary (base_fields data) "user_id"
                (required data "user_id" uuid_field) E
                (uuid_required_no_crash data "user_id")) as (P1 & _).
    rewrite P1, (required_absent _ _ _ Hn), in_app_iff. simpl. auto.
  - intros k Hk Hn. unfold CalculationSchemas.CalculationRead_validate, read_fields.
    apply and_then_reports, reports_pending.
    destruct (and_field_summary (base_fields data) "id"
                (required data "id" uuid_field) E
                (uuid_required_no_crash data "id")) as (P1 & V1 & E1).
    destruct (and_field_summary _ "user_id"
                (required data "user_id" uuid_field) E1
                (uuid_required_no_crash data "user_id")) as (P2 & V2 & E2).
    destruct (and_field_summary _ "result"
                (required data "result" float_validator) E2
                (float_required_no_crash data "result")) as (P3 & V3 & E3).
    destruct (and_field_summary _ "created_at"
                (required data "created_at" datetime_field) E3
                (datetime_required_no_crash data "created_at")) as (P4 & V4 & E4).
    destruct (and_field_summary _ "updated_at"
                (required data "updated_at" datetime_field) E4
                (datetime_required_no_crash data "updated_at")) as (P5 & _).
    rewrite P5, P4, P3, P2, P1, !in_app_iff.
    destruct Hk as [<-|[<-|[<-|[<-|[<-|[]]]]]];
      rewrite (required_absent _ _ _ Hn); simpl; auto 10.
Qed.

(** *** The division rule *)

Lemma and_field_located {A B} (acc : outcome A) (k : string) (r : fresult B) :
  (forall l, In l (pending acc) -> loc l <> []) ->
  forall l, In l (pending (and_field acc k r)) -> loc l <> [].
Proof.
  intros H l. destruct acc as [x|lines|x]; destruct r as [y|e|y]; simpl;
    try tauto.
  - intros [<-|[]]. discriminate.
  - apply H.
  - rewrite in_app_iff. intros [Hl|[<-|[]]]; [apply H; exact Hl|discriminate].
Qed.

Lemma base_fields_located (data : gmap string pyval) :
  forall l, In l (pending (base_fields data)) -> loc l <> [].
Proof.
  unfold CalculationSchemas.base_fields.
  repeat apply and_field_located. simpl. tauto.
Qed.

(** The line of the model validator is reported only when every field
    passed, and then by the model validator. *)
Lemma and_then_divide {A B C} (acc : outcome A) (build : A -> B)
    (validate : B -> result B) (finish : B -> C) :
  (forall l, In l (pending acc) -> loc l <> []) ->
  reports (and_then acc build validate finish) divide_line ->
  and_then acc build validate finish = divide_error
  /\ exists x, acc = Valid x /\ validate (build x) = ValueError divide_msg.
Proof.
  intros Hl. unfold and_then, divide_line, divide_error.
  destruct acc as [x|lines|x]; simpl; [|intros H; apply Hl in H; contradiction H; reflexivity|tauto].
  destruct (validate (build x)) eqn:E; simpl; try tauto.
  intros [[= ->]|[]]. split; [reflexivity|]. exists x. auto.
Qed.

Lemma validate_operands_divide (self : CalculationBase) :
  validate_operands self = ValueError divide_msg <->
  is_division (type self) = true /\ eq_zero (b self) = true.
Proof.
  unfold validate_operands. rewrite <- andb_true_iff.
  destruct (_ && _); split; (reflexivity || discriminate).
Qed.

(** X8: "Cannot divide by zero" is reported only for a payload whose
    three base fields all passed, with the type division and [b == 0], and
    it is then the only line of the error: a payload with an invalid field
    never gets it. *)
Theorem divide_error_only_when_fields_pass (data : gmap string pyval) :
  reports (CalculationBase_validate data) divide_line ->
  CalculationBase_validate data = divide_error
  /\ exists fa fb,
       base_fields data = Valid (tt, fa, fb, DIVISION) /\ eq_zero fb = true.
Proof.
  unfold CalculationSchemas.CalculationBase_validate. intros H.
  apply and_then_divide in H as (H & x & Hx & Hv); [|apply base_fields_located].
  split; [exact H|].
  destruct x as [[[[] fa] fb] t].
  apply validate_operands_divide in Hv as [Ht Hb]. cbn in Ht, Hb.
  destruct t; try discriminate. eauto.
Qed.

Lemma read_validate_condition (data : gmap string pyval) (c : CalculationRead) :
  CalculationRead_validate data = Valid c ->
  is_division (type (read_base c)) && eq_zero (b (read_base c)) = false.
Proof.
  unfold CalculationSchemas.CalculationRead_validate, and_then.
  destruct (read_fields _ _ _ _) as [[[[[[x i] u] r] cr] up]|lines|e];
    try discriminate.
  cbn [read_base].
  destruct (validate_operands (build_base x)) as [self|msg|e] eqn:E;
    try discriminate.
  apply validate_operands_ok in E as [_ E]. intros [= <-]. exact E.
Qed.

(** X9: no valid structure asks for a division by zero: in every
    [CalculationBase], [CalculationCreate], [CalculationRead] and
    [CalculationUpdate] that validation returns, a type division comes with
    an operand [b] that is not zero. *)
Theorem valid_structure_never_divides_by_zero :
  (forall (data : gmap string pyval) c,
     CalculationBase_validate data = Valid c ->
     is_division (type c) && eq_zero (b c) = false)
  /\ (forall (data : gmap string pyval) c,
        CalculationCreate_validate data = Valid c ->
        is_division (type (create_base c)) && eq_zero (b (create_base c)) = false)
  /\ (forall (data : gmap string pyval) c,
        CalculationRead_validate data = Valid c ->
        is_division (type (read_base c)) && eq_zero (b (read_base c)) = false)
  /\ (forall (data : gmap string pyval) u,
        CalculationUpdate_validate data = Valid u ->
        exists fa fb,
          update_a u = Some fa /\ update_b u = Some fb /\
          (update_type u = Some DIVISION -> eq_zero fb = false)).
Proof.
  split; [|split; [|split]].
  - intros data c H. apply base_validate_valid in H as [_ H]. exact H.
  - intros data c H. apply create_validate_valid in H as (_ & _ & H). exact H.
  - intros data c. apply read_validate_condition.
  - intros data u. unfold CalculationSchemas.CalculationUpdate_validate.
    destruct (optional data "a" float_validator) as [oa|ea|xa];
      (destruct (optional data "b" float_validator) as [ob|eb|xb]);
      (destruct (optional data "type" enum_validator) as [ot|et|xt]);
      cbn [and_field and_then]; try discriminate.
    unfold update_validate_operands. cbn [update_a update_b update_type].
    destruct oa as [fa|], ob as [fb|]; cbn [is_none orb]; try discriminate.
    destruct (_ && _) eqn:E; [discriminate|]. intros [= <-].
    exists fa, fb. cbn. repeat split. intros [= ->]. exact E.
Qed.

(** X10: only a division looks at [b]: when the three base fields pass
    and the type is not division, the payload is valid whatever [b] is,
    zero included, in [CalculationBase] and, with a valid user_id, in
    [CalculationCreate]. *)
Theorem other_types_accept_any_divisor (data : gmap string pyval)
    (va vb vt : pyval) (fa fb : float) (t : CalculationType) :
  data !! "a" = Some va -> data !! "b" = Some vb -> data !! "type" = Some vt ->
  operand_field va = Pass fa -> operand_field vb = Pass fb ->
  type_field vt = Pass t -> is_division t = false ->
  CalculationBase_validate data = Valid {| a := fa; b := fb; type := t |}
  /\ (forall u,
        required data "user_id" uuid_field = Pass u ->
        CalculationCreate_validate data =
        Valid {| create_base := {| a := fa; b := fb; type := t |};
                 create_user_id := u |}).
Proof.
  intros Ha Hb Ht Hfa Hfb Hft Hd. split.
  - rewrite (base_validate_pass _ _ _ _ _ _ _ _ Ha Hb Ht Hfa Hfb Hft).
    unfold checked. cbn [type]. rewrite Hd. reflexivity.
  - intros u Hu.
    rewrite (create_validate_pass _ _ _ _ _ _ _
               (base_fields_pass _ _ _ _ _ _ _ _ Ha Hb Ht Hfa Hfb Hft) Hu).
    unfold checked. cbn [type]. rewrite Hd. reflexivity.
Qed.

(** X11: the update variant applies the division rule to what it holds:
    with two numeric operands, the update is refused with "Cannot divide by
    zero" exactly when its type is division and [b == 0]; without a type, or
    with a null type, [b] may be zero. *)
Theorem update_division_rule (data : gmap string pyval) (va vb : pyval)
    (fa fb : float) (ot : option CalculationType) :
  data !! "a" = Some va -> data !! "b" = Some vb ->
  float_validator va = Pass fa -> float_validator vb = Pass fb ->
  optional data "type" enum_validator = Pass ot ->
  CalculationUpdate_validate data =
  if match ot with Some t => is_division t | None => false end && eq_zero fb
  then divide_error
  else Valid {| update_a := Some fa; update_b := Some fb; update_type := ot |}.
Proof.
  intros Ha Hb Hfa Hfb Ht. unfold CalculationSchemas.CalculationUpdate_validate.
  rewrite (optional_pass data "a" _ va fa Ha Hfa) by (intros ->; discriminate).
  rewrite (optional_pass data "b" _ vb fb Hb Hfb) by (intros ->; discriminate).
  rewrite Ht. cbn [and_field and_then]. unfold update_validate_operands.
  cbn [update_a update_b update_type is_none orb].
  change (default zero (Some fb)) with fb.
  destruct (_ && _); reflexivity.
Qed.

(** *** The variants and the base *)

Lemma base_validate_of_fields (data : gmap string pyval) (fa fb : float)
    (t : CalculationType) :
  base_fields data = Valid (tt, fa, fb, t) ->
  CalculationBase_validate data =
  checked {| a := fa; b := fb; type := t |} {| a := fa; b := fb; type := t |}.
Proof.
  intros H. unfold CalculationSchemas.CalculationBase_validate. rewrite H.
  unfold and_then, build_base, validate_operands, checked. cbn [type b].
  destruct (_ && _); reflexivity.
Qed.

(** X12: [CalculationCreate] is [CalculationBase] and a user_id: a
    payload is a valid create request exactly when it is a valid base, with
    the same a, b and type, and holds a valid user_id. *)
Theorem create_valid_iff_base_valid (data : gmap string pyval)
    (c : CalculationCreate) :
  CalculationCreate_validate data = Valid c <->
  CalculationBase_validate data = Valid (create_base c)
  /\ required data "user_id" uuid_field = Pass (create_user_id c).
Proof.
  destruct c as [[fa fb t] u]. cbn [create_base create_user_id]. split.
  - intros H. apply create_validate_valid in H as (Hf & Hu & Hc).
    cbn [create_base create_user_id a b type] in *.
    split; [|exact Hu].
    rewrite (base_validate_of_fields _ _ _ _ Hf). unfold checked.
    cbn [type b]. rewrite Hc. reflexivity.
  - intros [H Hu]. apply base_validate_valid in H as [Hf Hc].
    cbn [a b type] in *.
    rewrite (create_validate_pass _ _ _ _ _ _ _ Hf Hu). unfold checked.
    cbn [type b]. rewrite Hc. reflexivity.
Qed.

(** *** The type, in any case *)

(** X13: the case of the type does not matter: two payloads that differ
    only in the case of the letters of their type have the same outcome, in
    [CalculationBase], [CalculationCreate] and [CalculationRead]. *)
Theorem type_case_does_not_matter (data : gmap string pyval) (s s' : string) :
  data !! "type" = Some (PStr s) -> lower s' = lower s ->
  CalculationBase_validate (<["type" := PStr s']> data)
  = CalculationBase_validate data
  /\ CalculationCreate_validate (<["type" := PStr s']> data)
     = CalculationCreate_validate data
  /\ CalculationRead_validate (<["type" := PStr s']> data)
     = CalculationRead_validate data.
Proof.
  intros Ht Hs.
  assert (Hf : base_fields (<["type" := PStr s']> data) = base_fields data).
  { unfold CalculationSchemas.base_fields, required.
    rewrite lookup_insert_eq, !lookup_insert_ne by done. rewrite Ht.
    rewrite !type_field_text, Hs. reflexivity. }
  split; [|split].
  - unfold CalculationSchemas.CalculationBase_validate. rewrite Hf. reflexivity.
  - unfold CalculationSchemas.CalculationCreate_validate. rewrite Hf.
    unfold required. rewrite !lookup_insert_ne by done. reflexivity.
  - unfold CalculationSchemas.CalculationRead_validate, read_fields. rewrite Hf.
    unfold required. rewrite !lookup_insert_ne by done. reflexivity.
Qed.

End Collect.

(** X14: the type validator returns a canonical value: what it accepts
    comes back as the lowercase value of a member, the enum parser reads
    that member from it, and the validator accepts its own result
    unchanged. *)
Theorem validate_type_canonical (v w : pyval) :
  validate_type v = Ok w ->
  exists t,
    w = PStr (value t) /\ enum_validator w = Pass t /\ validate_type w = Ok w.
Proof.
  destruct v as [| | | |s| | |l|d]; try discriminate.
  unfold validate_type, in_str_set. rewrite allowed_find.
  destruct (List.find _ members) as [t|] eqn:E; [|discriminate].
  apply find_member in E. rewrite E. intros [= <-]. exists t.
  split; [reflexivity|]. split; destruct t; reflexivity.
Qed.

(** *** The properties, on payloads *)

(** a = "x", b = null, no type: three lines, in the order of the fields. *)
Lemma failed_fields_all_reported_witness :
  CalculationBase_validate no_number_text payload_bad_operands =
  Invalid [ {| loc := ["a"]; err := value_error operand_float_msg |};
            {| loc := ["b"]; err := value_error operand_missing_msg |};
            {| loc := ["type"]; err := missing |} ].
Proof.
  apply (failed_fields_all_reported no_number_text no_uuid_text
           no_datetime_text payload_bad_operands); reflexivity.
Defined.

(** The empty payload: "Field required" under a. *)
Lemma absent_key_field_required_witness :
  reports (CalculationBase_validate no_number_text payload_empty)
    {| loc := ["a"]; err := missing |}.
Proof.
  apply (absent_key_field_required no_number_text no_uuid_text
           no_datetime_text payload_empty eq_refl).
  - left. reflexivity.
  - reflexivity.
Defined.

Lemma divide_error_only_when_fields_pass_witness :
  reports (CalculationBase_validate no_number_text payload_divide_by_zero)
    divide_line
  /\ CalculationBase_validate no_number_text payload_divide_by_zero
     = divide_error.
Proof.
  assert (H : reports (CalculationBase_validate no_number_text
                         payload_divide_by_zero) divide_line)
    by (left; reflexivity).
  split; [exact H|].
  exact (proj1 (divide_error_only_when_fields_pass no_number_text
                  payload_divide_by_zero H)).
Defined.

(** a = 1, b = 0, type = "ADDITION": valid. *)
Lemma other_types_accept_any_divisor_witness :
  CalculationBase_validate no_number_text payload_zero_sum
  = Valid {| a := one; b := zero; type := ADDITION |}.
Proof.
  apply (other_types_accept_any_divisor no_number_text no_uuid_text
           payload_zero_sum (PInt 1) (PInt 0) (PStr "ADDITION"));
    reflexivity.
Defined.

(** An update with a = 1, b = -0.0 and type = "division" is refused. *)
Lemma update_division_rule_witness :
  CalculationUpdate_validate no_number_text payload_update_divide
  = divide_error.
Proof.
  apply (update_division_rule no_number_text payload_update_divide
           (PInt 1) (PFloat (S754_zero true)) one (S754_zero true)
           (Some DIVISION)); reflexivity.
Defined.

(** "ADDITION" and "addition". *)
Lemma type_case_does_not_matter_witness :
  CalculationBase_validate no_number_text
    (<["type" := PStr "addition"]> payload_zero_sum)
  = CalculationBase_validate no_number_text payload_zero_sum.
Proof.
  apply (type_case_does_not_matter no_number_text no_uuid_text
           no_datetime_text payload_zero_sum "ADDITION" "addition");
    reflexivity.
Defined.

Lemma validate_type_canonical_witness :
  validate_type (PStr "DiViSiOn") = Ok (PStr "division")
  /\ (exists t,
        PStr "division" = PStr (value t) /\
        enum_validator (PStr "division") = Pass t /\
        validate_type (PStr "division") = Ok (PStr "division")).
Proof.
  split; [reflexivity|].
  apply (validate_type_canonical (PStr "DiViSiOn") (PStr "division")).
  reflexivity.
Defined.

End CalculationExtras.
